(** * CodeQuality: the language detector and the response normalizers

    A shallow embedding of the two algorithmic parts of the application:
    - [detectLanguage] (src/utils/language-detector.ts), a cascade of regular
      expression probes over the pasted code;
    - the six [parse*Response] normalizers of src/services/ai-service.ts,
      together with [sanitizeApiKey] and the credential guard of [callAI];
    - [callAI] and the [analyze*] functions over abstract provider calls,
      the state handlers of src/App.tsx and the configuration panel.

    JavaScript strings are sequences of UTF-16 code units, so a string is a
    [list N] here.  Regular expressions are kept as syntax trees and run by
    a small backtracking matcher that follows the ECMAScript rules for the
    constructs the source uses (no flags except [g] on the replacements). *)

From Stdlib Require Import List NArith ZArith Bool String Ascii Lia.
Import ListNotations.

(* ===================================================================== *)
(** ** JavaScript strings *)
(* ===================================================================== *)

Module JsString.

(** A UTF-16 code unit. *)
Definition char := N.
Definition jsstring := list char.

(** An ASCII source literal as a JavaScript string. *)
Definition lit (s : string) : jsstring :=
  map N_of_ascii (list_ascii_of_string s).

Definition LF : char := 10%N.
Definition BACKTICK : char := 96%N.

Local Open Scope N_scope.

(** ECMAScript WhiteSpace and LineTerminator code points: what
    [String.prototype.trim] strips and what [\s] matches. *)
Definition is_space (c : char) : bool :=
  ((9 <=? c) && (c <=? 13)) || (c =? 32) || (c =? 160) || (c =? 5760)
  || ((8192 <=? c) && (c <=? 8202)) || (c =? 8232) || (c =? 8233)
  || (c =? 8239) || (c =? 8287) || (c =? 12288) || (c =? 65279).

(** [\w] is [A-Za-z0-9_]. *)
Definition is_word (c : char) : bool :=
  ((65 <=? c) && (c <=? 90)) || ((97 <=? c) && (c <=? 122))
  || ((48 <=? c) && (c <=? 57)) || (c =? 95).

(** [.] matches everything but the four line terminators. *)
Definition is_dot (c : char) : bool :=
  negb ((c =? 10) || (c =? 13) || (c =? 8232) || (c =? 8233)).

Fixpoint trimStart (s : jsstring) : jsstring :=
  match s with
  | [] => []
  | c :: t => if is_space c then trimStart t else s
  end.

Fixpoint trimEnd (s : jsstring) : jsstring :=
  match s with
  | [] => []
  | c :: t =>
      match trimEnd t with
      | [] => if is_space c then [] else [c]
      | t' => c :: t'
      end
  end.

(** [s.trim()] *)
Definition trim (s : jsstring) : jsstring := trimEnd (trimStart s).

(** [s.split('\n')]: never empty, [''.split('\n')] is [['']]. *)
Fixpoint split_lines (s : jsstring) : list jsstring :=
  match s with
  | [] => [[]]
  | c :: t =>
      if c =? LF then [] :: split_lines t
      else match split_lines t with
           | l :: ls => (c :: l) :: ls
           | [] => [[c]]
           end
  end.

(** [ls.join('\n')] *)
Fixpoint join_lines (ls : list jsstring) : jsstring :=
  match ls with
  | [] => []
  | [l] => l
  | l :: rest => l ++ LF :: join_lines rest
  end.

(** [s.startsWith(p)] *)
Fixpoint startsWith (s p : jsstring) {struct p} : bool :=
  match p, s with
  | [], _ => true
  | _ :: _, [] => false
  | a :: p', b :: s' => (a =? b) && startsWith s' p'
  end.

(** [ls[0]], [undefined] never arises on the result of [split]. *)
Definition first_line (ls : list jsstring) : jsstring := hd [] ls.

Definition is_empty (s : jsstring) : bool :=
  match s with [] => true | _ => false end.

(** [s.includes(p)] *)
Fixpoint includes (s p : jsstring) : bool :=
  startsWith s p
  || match s with
     | [] => false
     | _ :: t => includes t p
     end.

End JsString.
Import JsString.

(* ===================================================================== *)
(** ** Regular expressions *)
(* ===================================================================== *)

Module Regex.

Inductive regex : Type :=
| Eps                          (* the empty pattern *)
| Chr (c : char)               (* a literal character *)
| Cls (p : char -> bool)       (* a character class, [\s], [\w], [.] *)
| Seq (a b : regex)
| Alt (a b : regex)            (* a|b, a tried first *)
| Star (a : regex)             (* a*, greedy *)
| Bos                          (* ^ without the m flag *)
| Eos                          (* $ without the m flag *)
| WordB.                       (* \b *)

Definition Opt (a : regex) : regex := Alt a Eps.       (* a? *)
Definition Plus (a : regex) : regex := Seq a (Star a). (* a+ *)

Fixpoint chars (s : jsstring) : regex :=
  match s with
  | [] => Eps
  | [c] => Chr c
  | c :: t => Seq (Chr c) (chars t)
  end.

(** A literal run of ASCII characters. *)
Definition L (s : string) : regex := chars (lit s).

Fixpoint seqs (rs : list regex) : regex :=
  match rs with
  | [] => Eps
  | [r] => r
  | r :: rest => Seq r (seqs rest)
  end.

(** [alts [a; b; c]] is [(a|b|c)]; the source never writes an empty group. *)
Fixpoint alts (rs : list regex) : regex :=
  match rs with
  | [] => Eps
  | [r] => r
  | r :: rest => Alt r (alts rest)
  end.

Definition ws : regex := Cls is_space.   (* \s *)
Definition wd : regex := Cls is_word.    (* \w *)
Definition dot : regex := Cls is_dot.    (* . *)

(** A position in the subject: the character before it, if any, and the
    characters from it on. *)
Record pos : Type := Pos { before : option char; rest : jsstring }.

Definition word_before (p : pos) : bool :=
  match before p with Some c => is_word c | None => false end.
Definition word_after (p : pos) : bool :=
  match rest p with c :: _ => is_word c | [] => false end.

Definition shorter (p q : pos) : bool :=
  (List.length (rest q) <? List.length (rest p))%nat.

(** Iterations of a starred body [f] from [p], longest first.  An
    iteration that consumes nothing is dropped, as ECMAScript does; each
    kept iteration shortens the rest, so [length (rest p)] rounds
    suffice. *)
Fixpoint star_iter (f : pos -> list pos) (n : nat) (p : pos) : list pos :=
  match n with
  | O => [p]
  | S n' => flat_map (star_iter f n') (filter (shorter p) (f p)) ++ [p]
  end.

(** All positions at which a match of [r] started at [p] can end, in the
    order in which a backtracking matcher finds them. *)
Fixpoint matches (r : regex) (p : pos) : list pos :=
  match r with
  | Eps => [p]
  | Chr c =>
      match rest p with
      | x :: t => if N.eqb x c then [Pos (Some x) t] else []
      | [] => []
      end
  | Cls f =>
      match rest p with
      | x :: t => if f x then [Pos (Some x) t] else []
      | [] => []
      end
  | Seq a b => flat_map (matches b) (matches a p)
  | Alt a b => matches a p ++ matches b p
  | Star a => star_iter (matches a) (List.length (rest p)) p
  | Bos => match before p with None => [p] | Some _ => [] end
  | Eos => match rest p with [] => [p] | _ :: _ => [] end
  | WordB => if xorb (word_before p) (word_after p) then [p] else []
  end.

Definition matches_at (r : regex) (p : pos) : bool :=
  match matches r p with [] => false | _ :: _ => true end.

Fixpoint test_from (r : regex) (b : option char) (s : jsstring) : bool :=
  matches_at r (Pos b s)
  || match s with
     | [] => false
     | c :: t => test_from r (Some c) t
     end.

(** [r.test(s)] for a regex without the [g] and [y] flags. *)
Definition test (r : regex) (s : jsstring) : bool := test_from r None s.

(** [s.replace(r, '')] for a regex [r] with the [g] flag: the matches are
    found left to right, each search resuming where the last match ended
    (one character further after an empty match); [skip] counts the
    characters of the current match still to be dropped. *)
Fixpoint remove_from (r : regex) (skip : nat) (b : option char)
         (s : jsstring) : jsstring :=
  match s with
  | [] => []
  | c :: t =>
      match skip with
      | S k => remove_from r k (Some c) t
      | O =>
          match matches r (Pos b s) with
          | [] => c :: remove_from r 0 (Some c) t
          | e :: _ =>
              match (List.length s - List.length (rest e))%nat with
              | O => c :: remove_from r 0 (Some c) t
              | S k => remove_from r k (Some c) t
              end
          end
      end
  end.

Definition remove_all (r : regex) (s : jsstring) : jsstring :=
  remove_from r 0 None s.

End Regex.
Import Regex.

(* ===================================================================== *)
(** ** The language detector (src/utils/language-detector.ts) *)
(* ===================================================================== *)

Module LanguageDetector.

Local Open Scope N_scope.

(** The probes, in the order of the source.  Each name carries the
    language and the rank of the probe inside its [if]. *)

(* /^(def|class|import|from|if __name__|print\(|async def)\s/ *)
Definition re_python1 : regex :=
  seqs [Bos; alts [L "def"; L "class"; L "import"; L "from";
                   L "if __name__"; L "print("; L "async def"]; ws].
(* /:\s*$/ *)
Definition re_python2 : regex := seqs [L ":"; Star ws; Eos].
(* /^\s*(def|class|import|from|elif|async def)\s/ *)
Definition re_python3 : regex :=
  seqs [Bos; Star ws;
        alts [L "def"; L "class"; L "import"; L "from"; L "elif";
              L "async def"]; ws].

(* /\b(public|private|protected)\s+(static\s+)?(class|interface|enum|void|int|String)\b/ *)
Definition re_java1 : regex :=
  seqs [WordB; alts [L "public"; L "private"; L "protected"]; Plus ws;
        Opt (Seq (L "static") (Plus ws));
        alts [L "class"; L "interface"; L "enum"; L "void"; L "int";
              L "String"]; WordB].
(* /\bpackage\s+[\w.]+;/ *)
Definition re_java2 : regex :=
  seqs [WordB; L "package"; Plus ws;
        Plus (Cls (fun c => is_word c || (c =? 46))); L ";"].
(* /\bimport\s+java\./ *)
Definition re_java3 : regex := seqs [WordB; L "import"; Plus ws; L "java."].
(* /\bSystem\.out\.println/ *)
Definition re_java4 : regex := seqs [WordB; L "System.out.println"].

(* /\b(namespace|using\s+System|public\s+class|private\s+class)\b/ *)
Definition re_csharp1 : regex :=
  seqs [WordB;
        alts [L "namespace";
              seqs [L "using"; Plus ws; L "System"];
              seqs [L "public"; Plus ws; L "class"];
              seqs [L "private"; Plus ws; L "class"]];
        WordB].
(* /\bConsole\.WriteLine/ *)
Definition re_csharp2 : regex := seqs [WordB; L "Console.WriteLine"].
(* /\[.*Attribute\]/ *)
Definition re_csharp3 : regex := seqs [L "["; Star dot; L "Attribute]"].
(* /\basync\s+Task/ *)
Definition re_csharp4 : regex := seqs [WordB; L "async"; Plus ws; L "Task"].

(* /#include\s*[<Q]/ where Q stands for the double quote, code 34 *)
Definition re_cpp1 : regex :=
  seqs [L "#include"; Star ws; Cls (fun c => (c =? 60) || (c =? 34))].
(* /\b(std::|cout|cin|endl|nullptr|template\s*<)\b/ *)
Definition re_cpp2 : regex :=
  seqs [WordB;
        alts [L "std::"; L "cout"; L "cin"; L "endl"; L "nullptr";
              seqs [L "template"; Star ws; L "<"]];
        WordB].
(* /^using namespace std;?/ *)
Definition re_cpp3 : regex := seqs [Bos; L "using namespace std"; Opt (L ";")].

(* /^package\s+\w+/ *)
Definition re_go1 : regex := seqs [Bos; L "package"; Plus ws; Plus wd].
(* /\bfunc\s+\w+\(/ *)
Definition re_go2 : regex := seqs [WordB; L "func"; Plus ws; Plus wd; L "("].
(* /\bimport\s+\(/ *)
Definition re_go3 : regex := seqs [WordB; L "import"; Plus ws; L "("].
(* /\bfmt\.Print/ *)
Definition re_go4 : regex := seqs [WordB; L "fmt.Print"].
(* /:=\s*/ *)
Definition re_go5 : regex := seqs [L ":="; Star ws].

(* /\bfn\s+\w+/ *)
Definition re_rust1 : regex := seqs [WordB; L "fn"; Plus ws; Plus wd].
(* /\blet\s+mut\s+/ *)
Definition re_rust2 : regex :=
  seqs [WordB; L "let"; Plus ws; L "mut"; Plus ws].
(* /\buse\s+std::/ *)
Definition re_rust3 : regex := seqs [WordB; L "use"; Plus ws; L "std::"].
(* /\bimpl\s+/ *)
Definition re_rust4 : regex := seqs [WordB; L "impl"; Plus ws].
(* /\b(pub\s+)?(struct|enum|trait)\s+/ *)
Definition re_rust5 : regex :=
  seqs [WordB; Opt (Seq (L "pub") (Plus ws));
        alts [L "struct"; L "enum"; L "trait"]; Plus ws].

(* /\b(def|class|module|require|puts|attr_accessor|end)\b/ *)
Definition re_ruby1 : regex :=
  seqs [WordB;
        alts [L "def"; L "class"; L "module"; L "require"; L "puts";
              L "attr_accessor"; L "end"];
        WordB].
(* /\bdo\s*\|.*\|/ *)
Definition re_ruby2 : regex :=
  seqs [WordB; L "do"; Star ws; L "|"; Star dot; L "|"].
(* /@\w+/ *)
Definition re_ruby3a : regex := seqs [L "@"; Plus wd].
(* /\bdef\s+/ *)
Definition re_ruby3b : regex := seqs [WordB; L "def"; Plus ws].

(* /^<\?php/ *)
Definition re_php1 : regex := seqs [Bos; L "<?php"].
(* /\$\w+\s*=/ *)
Definition re_php2 : regex := seqs [L "$"; Plus wd; Star ws; L "="].
(* /\bfunction\s+\w+\(.*\)\s*\{/ *)
Definition re_php3a : regex :=
  seqs [WordB; L "function"; Plus ws; Plus wd; L "("; Star dot; L ")";
        Star ws; L "{"].
(* /\$/ *)
Definition re_php3b : regex := L "$".
(* /\b(echo|print_r|var_dump)\b/ *)
Definition re_php4 : regex :=
  seqs [WordB; alts [L "echo"; L "print_r"; L "var_dump"]; WordB].

(* /:\s*(string|number|boolean|any|void|never|unknown)\b/ *)
Definition re_ts1 : regex :=
  seqs [L ":"; Star ws;
        alts [L "string"; L "number"; L "boolean"; L "any"; L "void";
              L "never"; L "unknown"];
        WordB].
(* /\binterface\s+\w+/ *)
Definition re_ts2 : regex := seqs [WordB; L "interface"; Plus ws; Plus wd].
(* /\btype\s+\w+\s*=/ *)
Definition re_ts3 : regex :=
  seqs [WordB; L "type"; Plus ws; Plus wd; Star ws; L "="].
(* /<\w+>/ *)
Definition re_ts4a : regex := seqs [L "<"; Plus wd; L ">"].
(* /\bfunction\s+/ *)
Definition re_ts4b : regex := seqs [WordB; L "function"; Plus ws].
(* /\bas\s+\w+/ *)
Definition re_ts5 : regex := seqs [WordB; L "as"; Plus ws; Plus wd].
(* /\benum\s+\w+/ *)
Definition re_ts6 : regex := seqs [WordB; L "enum"; Plus ws; Plus wd].

(* /\b(const|let|var|function|class|import|export|async|await|=>)\b/ *)
Definition re_js1 : regex :=
  seqs [WordB;
        alts [L "const"; L "let"; L "var"; L "function"; L "class";
              L "import"; L "export"; L "async"; L "await"; L "=>"];
        WordB].
(* /\bconsole\.(log|error|warn)/ *)
Definition re_js2 : regex :=
  seqs [WordB; L "console."; alts [L "log"; L "error"; L "warn"]].
(* /\brequire\(/ *)
Definition re_js3 : regex := seqs [WordB; L "require("].
(* /\bmodule\.exports/ *)
Definition re_js4 : regex := seqs [WordB; L "module.exports"].

(** The three strings the probes read. *)
Definition lines_of (trimmedCode : jsstring) : list jsstring :=
  map trim (split_lines trimmedCode).

Definition content_of (lines : list jsstring) : jsstring :=
  join_lines
    (filter (fun line => (0 <? List.length line)%nat
                         && negb (startsWith line (lit "//"))) lines).

Definition detectLanguage (code : jsstring) : jsstring :=
  if is_empty code || (List.length (trim code) =? 0)%nat then
    lit "javascript"
  else
    let trimmedCode := trim code in
    let lines := lines_of trimmedCode in
    let codeContent := content_of lines in
    if test re_python1 codeContent
       || test re_python2 (first_line lines)
       || test re_python3 codeContent
    then lit "python"
    else if test re_java1 codeContent
            || test re_java2 codeContent
            || test re_java3 codeContent
            || test re_java4 codeContent
    then lit "java"
    else if test re_csharp1 codeContent
            || test re_csharp2 codeContent
            || test re_csharp3 codeContent
            || test re_csharp4 codeContent
    then lit "csharp"
    else if test re_cpp1 codeContent
            || test re_cpp2 codeContent
            || test re_cpp3 codeContent
    then lit "cpp"
    else if test re_go1 trimmedCode
            || test re_go2 codeContent
            || test re_go3 codeContent
            || test re_go4 codeContent
            || test re_go5 codeContent
    then lit "go"
    else if test re_rust1 codeContent
            || test re_rust2 codeContent
            || test re_rust3 codeContent
            || test re_rust4 codeContent
            || test re_rust5 codeContent
    then lit "rust"
    else if test re_ruby1 codeContent
            || test re_ruby2 codeContent
            || (test re_ruby3a codeContent && test re_ruby3b codeContent)
    then lit "ruby"
    else if test re_php1 trimmedCode
            || test re_php2 codeContent
            || (test re_php3a codeContent && test re_php3b codeContent)
            || test re_php4 codeContent
    then lit "php"
    else if test re_ts1 codeContent
            || test re_ts2 codeContent
            || test re_ts3 codeContent
            || (test re_ts4a codeContent && test re_ts4b codeContent)
            || test re_ts5 codeContent
            || test re_ts6 codeContent
    then lit "typescript"
    else if test re_js1 codeContent
            || test re_js2 codeContent
            || test re_js3 codeContent
            || test re_js4 codeContent
    then lit "javascript"
    else lit "javascript".

End LanguageDetector.
Import LanguageDetector.

(* ===================================================================== *)
(** ** JavaScript values and [JSON.parse] *)
(* ===================================================================== *)

Module Json.

Local Open Scope N_scope.

(** A number as [JSON.parse] reads it: the decimal
    [(-1)^neg * mant * 10^expo] of the token.  JavaScript rounds it to a
    double; the only thing the normalizers ask of a number is whether
    that double is zero. *)
Inductive number : Type := Num (neg : bool) (mant : N) (expo : Z).

Definition num_of_N (n : N) : number := Num false n 0.
Definition num_of_nat (n : nat) : number := num_of_N (N.of_nat n).

(** The double nearest to the decimal is [+0] or [-0] exactly when the
    decimal is at most [2^-1075] in magnitude (half the least subnormal,
    the tie going to the even neighbour, which is zero). *)
Definition num_is_zero (n : number) : bool :=
  match n with
  | Num _ m e =>
      (m =? 0)
      || ((e <? 0)%Z && (m * 2 ^ 1075 <=? 10 ^ Z.to_N (- e)))
  end.

#[local] Set Warnings "-register-all".
Inductive value : Type :=
| VUndefined
| VNull
| VBool (b : bool)
| VNum (n : number)
| VStr (s : jsstring)
| VArr (items : list value)
| VObj (props : list (jsstring * value)).

Fixpoint str_eqb (a b : jsstring) : bool :=
  match a, b with
  | [], [] => true
  | x :: a', y :: b' => (x =? y) && str_eqb a' b'
  | _, _ => false
  end.

(** Own properties in insertion order; defining a key again keeps its
    place and replaces its value, as [JSON.parse] does on a duplicate. *)
Fixpoint obj_set (k : jsstring) (v : value) (o : list (jsstring * value))
  : list (jsstring * value) :=
  match o with
  | [] => [(k, v)]
  | (k', v') :: o' =>
      if str_eqb k k' then (k, v) :: o' else (k', v') :: obj_set k v o'
  end.

Fixpoint obj_get (k : jsstring) (o : list (jsstring * value)) : option value :=
  match o with
  | [] => None
  | (k', v) :: o' => if str_eqb k k' then Some v else obj_get k o'
  end.

(** *** Tokens *)

Inductive token : Type :=
| TLBrace | TRBrace | TLBracket | TRBracket | TColon | TComma
| TString (s : jsstring) | TNumber (n : number)
| TTrue | TFalse | TNull.

(** JSON white space: tab, line feed, carriage return, space. *)
Definition is_json_ws (c : char) : bool :=
  (c =? 9) || (c =? 10) || (c =? 13) || (c =? 32).

Definition is_digit (c : char) : bool := (48 <=? c) && (c <=? 57).

Definition hex_val (c : char) : option N :=
  if is_digit c then Some (c - 48)
  else if (97 <=? c) && (c <=? 102) then Some (c - 87)
  else if (65 <=? c) && (c <=? 70) then Some (c - 55)
  else None.

Definition hex4 (a b c d : char) : option char :=
  match hex_val a, hex_val b, hex_val c, hex_val d with
  | Some w, Some x, Some y, Some z => Some (((w * 16 + x) * 16 + y) * 16 + z)
  | _, _, _, _ => None
  end.

(** The character a single-letter escape stands for. *)
Definition escape (c : char) : option char :=
  if c =? 34 then Some 34          (* quote *)
  else if c =? 92 then Some 92     (* backslash *)
  else if c =? 47 then Some 47     (* slash *)
  else if c =? 98 then Some 8      (* b *)
  else if c =? 102 then Some 12    (* f *)
  else if c =? 110 then Some 10    (* n *)
  else if c =? 114 then Some 13    (* r *)
  else if c =? 116 then Some 9     (* t *)
  else None.

Definition cons_char (c : char) (r : option (jsstring * nat)) (n : nat)
  : option (jsstring * nat) :=
  match r with
  | Some (s, k) => Some (c :: s, (k + n)%nat)
  | None => None
  end.

(** The body of a string token after its opening quote: the decoded
    characters and how many characters of [s] the token spans, the
    closing quote included. *)
Fixpoint lex_string (s : jsstring) : option (jsstring * nat) :=
  match s with
  | [] => None
  | c :: t =>
      if c =? 34 then Some ([], 1%nat)
      else if c =? 92 then
        match t with
        | [] => None
        | e :: t1 =>
            if e =? 117 then
              match t1 with
              | h1 :: h2 :: h3 :: h4 :: t2 =>
                  match hex4 h1 h2 h3 h4 with
                  | Some u => cons_char u (lex_string t2) 6
                  | None => None
                  end
              | _ => None
              end
            else
              match escape e with
              | Some u => cons_char u (lex_string t1) 2
              | None => None
              end
        end
      else if c <? 32 then None
      else cons_char c (lex_string t) 1
  end.

(** The longest run of digits at the head of [s], and what follows. *)
Fixpoint take_digits (s : jsstring) : list N * jsstring :=
  match s with
  | c :: t =>
      if is_digit c then
        let (ds, r) := take_digits t in ((c - 48) :: ds, r)
      else ([], s)
  | [] => ([], [])
  end.

Definition digits_val (ds : list N) : N :=
  fold_left (fun acc d => acc * 10 + d) ds 0.

(** A number token at the head of [s]:
    [-? (0 | [1-9][0-9]* ) (. [0-9]+)? ([eE] [+-]? [0-9]+)?]. *)
Definition lex_number (s : jsstring) : option (number * nat) :=
  let (neg, s1) :=
    match s with
    | c :: t => if c =? 45 then (true, t) else (false, s)
    | [] => (false, s)
    end in
  match s1 with
  | d :: t1 =>
      if is_digit d then
        let (ints, s2) := if d =? 48 then ([0], t1) else take_digits s1 in
        let (fracs, s3) :=
          match s2 with
          | c :: t2 =>
              if c =? 46 then
                match take_digits t2 with
                | ([], _) => ([], s2)
                | (ds, r) => (ds, r)
                end
              else ([], s2)
          | [] => ([], s2)
          end in
        let (ex, s4) :=
          match s3 with
          | c :: t3 =>
              if (c =? 101) || (c =? 69) then
                let (eneg, t4) :=
                  match t3 with
                  | g :: u =>
                      if g =? 43 then (false, u)
                      else if g =? 45 then (true, u)
                      else (false, t3)
                  | [] => (false, t3)
                  end in
                match take_digits t4 with
                | ([], _) => (0%Z, s3)
                | (ds, r) =>
                    let e := Z.of_N (digits_val ds) in
                    ((if eneg then (- e)%Z else e), r)
                end
              else (0%Z, s3)
          | [] => (0%Z, s3)
          end in
        Some (Num neg (digits_val (ints ++ fracs))
                  (ex - Z.of_nat (List.length fracs)),
              (List.length s - List.length s4)%nat)
      else None
  | [] => None
  end.

(** The token that starts with [c] followed by [t], and how many
    characters of [t] it spans. *)
Definition token_at (c : char) (t : jsstring) : option (token * nat) :=
  if c =? 123 then Some (TLBrace, 0%nat)
  else if c =? 125 then Some (TRBrace, 0%nat)
  else if c =? 91 then Some (TLBracket, 0%nat)
  else if c =? 93 then Some (TRBracket, 0%nat)
  else if c =? 58 then Some (TColon, 0%nat)
  else if c =? 44 then Some (TComma, 0%nat)
  else if c =? 34 then
    match lex_string t with
    | Some (s, n) => Some (TString s, n)
    | None => None
    end
  else if (c =? 45) || is_digit c then
    match lex_number (c :: t) with
    | Some (x, n) => Some (TNumber x, pred n)
    | None => None
    end
  else if (c =? 116) && startsWith t (lit "rue") then Some (TTrue, 3%nat)
  else if (c =? 102) && startsWith t (lit "alse") then Some (TFalse, 4%nat)
  else if (c =? 110) && startsWith t (lit "ull") then Some (TNull, 3%nat)
  else None.

(** The tokens of a text; [skip] counts the characters of the current
    token still to be passed over.  [None] on a character no token can
    start with. *)
Fixpoint lex (skip : nat) (s : jsstring) : option (list token) :=
  match s with
  | [] => Some []
  | c :: t =>
      match skip with
      | S k => lex k t
      | O =>
          if is_json_ws c then lex 0 t
          else
            match token_at c t with
            | Some (tok, n) =>
                match lex n t with
                | Some toks => Some (tok :: toks)
                | None => None
                end
            | None => None
            end
      end
  end.

(** *** The grammar, as a pushdown automaton over the tokens *)

(** An enclosing array with the elements read so far (last first), or an
    enclosing object with its members so far and the key whose value is
    being read. *)
Inductive frame : Type :=
| InArr (acc : list value)
| InObj (acc : list (jsstring * value)) (key : jsstring).

Inductive mode : Type :=
| WantValue                                   (* a value must follow *)
| WantValueOrEnd                              (* just after [ *)
| WantKeyOrEnd                                (* just after { *)
| WantKey (acc : list (jsstring * value))     (* after a comma in an object *)
| WantColon (acc : list (jsstring * value)) (key : jsstring)
| Done (v : value).                           (* a value is complete *)

Definition start_value (tok : token) (stack : list frame)
  : option (mode * list frame) :=
  match tok with
  | TLBrace => Some (WantKeyOrEnd, stack)
  | TLBracket => Some (WantValueOrEnd, InArr [] :: stack)
  | TString s => Some (Done (VStr s), stack)
  | TNumber n => Some (Done (VNum n), stack)
  | TTrue => Some (Done (VBool true), stack)
  | TFalse => Some (Done (VBool false), stack)
  | TNull => Some (Done VNull, stack)
  | _ => None
  end.

Definition step (st : mode * list frame) (tok : token)
  : option (mode * list frame) :=
  let (m, stack) := st in
  match m with
  | WantValue => start_value tok stack
  | WantValueOrEnd =>
      match tok, stack with
      | TRBracket, InArr acc :: stack' => Some (Done (VArr (rev acc)), stack')
      | _, _ => start_value tok stack
      end
  | WantKeyOrEnd =>
      match tok with
      | TRBrace => Some (Done (VObj []), stack)
      | TString k => Some (WantColon [] k, stack)
      | _ => None
      end
  | WantKey acc =>
      match tok with
      | TString k => Some (WantColon acc k, stack)
      | _ => None
      end
  | WantColon acc k =>
      match tok with
      | TColon => Some (WantValue, InObj acc k :: stack)
      | _ => None
      end
  | Done v =>
      match stack, tok with
      | InArr acc :: stack', TComma => Some (WantValue, InArr (v :: acc) :: stack')
      | InArr acc :: stack', TRBracket =>
          Some (Done (VArr (rev (v :: acc))), stack')
      | InObj acc k :: stack', TComma => Some (WantKey (obj_set k v acc), stack')
      | InObj acc k :: stack', TRBrace =>
          Some (Done (VObj (obj_set k v acc)), stack')
      | _, _ => None
      end
  end.

Fixpoint run (st : mode * list frame) (toks : list token) : option value :=
  match toks with
  | [] =>
      match st with
      | (Done v, []) => Some v
      | _ => None
      end
  | tok :: toks' =>
      match step st tok with
      | Some st' => run st' toks'
      | None => None
      end
  end.

(** [JSON.parse(text)] without a reviver; [None] stands for the
    [SyntaxError] it throws. *)
Definition JSON_parse (text : jsstring) : option value :=
  match lex 0 text with
  | Some toks => run (WantValue, []) toks
  | None => None
  end.

End Json.
Import Json.

(* ===================================================================== *)
(** ** Exceptions and the operators the normalizers use *)
(* ===================================================================== *)

Module Js.

Inductive exn : Type :=
| SyntaxError                 (* thrown by JSON.parse *)
| TypeError                   (* reading a property of null or undefined *)
| Error (message : string).   (* new Error(message) *)

Inductive result (A : Type) : Type :=
| Ok (a : A)
| Throw (e : exn).
Arguments Ok {A} a.
Arguments Throw {A} e.

Definition bind {A B : Type} (m : result A) (f : A -> result B) : result B :=
  match m with
  | Ok a => f a
  | Throw e => Throw e
  end.

(** [try { body } catch (error) { handler }] *)
Definition try_catch {A : Type} (body : result A) (handler : exn -> result A)
  : result A :=
  match body with
  | Ok a => Ok a
  | Throw e => handler e
  end.

Definition parse (text : jsstring) : result value :=
  match JSON_parse text with
  | Some v => Ok v
  | None => Throw SyntaxError
  end.

(** ToBoolean *)
Definition truthy (v : value) : bool :=
  match v with
  | VUndefined | VNull => false
  | VBool b => b
  | VNum n => negb (num_is_zero n)
  | VStr s => negb (is_empty s)
  | VArr _ | VObj _ => true
  end.

(** [v.name]: a [TypeError] on null and undefined; an own property of an
    object; the length of an array or of a string; [undefined] otherwise.
    The only names the normalizers read are the field names of the
    response and [length]; none of them is inherited from a prototype. *)
Definition get (v : value) (name : string) : result value :=
  match v with
  | VUndefined | VNull => Throw TypeError
  | VObj props =>
      match obj_get (lit name) props with
      | Some x => Ok x
      | None => Ok VUndefined
      end
  | VArr items =>
      if String.eqb name "length"
      then Ok (VNum (num_of_nat (List.length items)))
      else Ok VUndefined
  | VStr s =>
      if String.eqb name "length"
      then Ok (VNum (num_of_nat (List.length s)))
      else Ok VUndefined
  | VBool _ | VNum _ => Ok VUndefined
  end.

(** [v?.name] *)
Definition get_opt (v : value) (name : string) : result value :=
  match v with
  | VUndefined | VNull => Ok VUndefined
  | _ => get v name
  end.

(** [a || b]: [b] is evaluated only when [a] is falsy. *)
Definition or_else (a b : result value) : result value :=
  bind a (fun x => if truthy x then Ok x else b).

End Js.
Import Js.

Declare Scope js_scope.
Delimit Scope js_scope with js.
Notation "x <- m ;; k" := (bind m (fun x => k))
  (at level 61, m at next level, right associativity) : js_scope.
Notation "a <|> b" := (or_else a b)
  (at level 51, right associativity) : js_scope.
Notation "v '.[' name ']'" := (get v name)
  (at level 1, format "v .[ name ]") : js_scope.

(* ===================================================================== *)
(** ** The response normalizers (src/services/ai-service.ts) *)
(* ===================================================================== *)

(** The result types of src/types/index.ts.  TypeScript's field types are
    erased at run time and the normalizers check none of them, so every
    field holds a JavaScript value. *)

Module ExplainerResult.
Record t : Type := mk { summary : value; explanations : value }.
End ExplainerResult.

Module BugFinderResult.
Record t : Type :=
  mk { bugs : value; totalCount : value; severitySummary : value }.
End BugFinderResult.

Module RefactorResult.
Record t : Type := mk { suggestions : value; overallScore : value }.
End RefactorResult.

Module CodeSmellResult.
Record t : Type :=
  mk { smells : value; totalCount : value; categorySummary : value;
       overallHealthScore : value }.
End CodeSmellResult.

Module ComplexityResult.
Record t : Type :=
  mk { functions : value; overallMetrics : value;
       maintainabilityIndex : value; recommendations : value }.
End ComplexityResult.

Module SecurityResult.
Record t : Type :=
  mk { vulnerabilities : value; totalCount : value;
       severitySummary : value; categorySummary : value;
       securityScore : value; recommendations : value }.
End SecurityResult.

Module AiService.

Local Open Scope string_scope.
Local Open Scope list_scope.
Local Open Scope js_scope.

Definition num (n : N) : value := VNum (num_of_N n).
Definition str (s : string) : value := VStr (lit s).

(** An object literal whose properties are all [0]. *)
Definition zeros (keys : list string) : value :=
  VObj (map (fun k => (lit k, num 0)) keys).

(* /[^\x00-\x7F]/g *)
Definition re_non_ascii : regex := Cls (fun c => negb (N.leb c 127)).

Definition sanitizeApiKey (apiKey : jsstring) : jsstring :=
  remove_all re_non_ascii (trim apiKey).

(** The guard at the head of [callAI]:
    [!config.apiKey || config.apiKey.trim() === '']. *)
Definition apiKey_missing (apiKey : jsstring) : bool :=
  is_empty apiKey || str_eqb (trim apiKey) [].

Definition callAI_validate (apiKey : jsstring) : result unit :=
  if apiKey_missing apiKey
  then Throw (Error "API key is required. Please enter your API key in the AI Configuration section.")
  else Ok tt.

(* /```json\n?/g *)
Definition re_fence_json : regex := Seq (L "```json") (Opt (Chr LF)).
(* /```\n?/g *)
Definition re_fence : regex := Seq (L "```") (Opt (Chr LF)).

(** [response.replace(/```json\n?/g, '').replace(/```\n?/g, '').trim()],
    the first statement of every normalizer. *)
Definition clean (response : jsstring) : jsstring :=
  trim (remove_all re_fence (remove_all re_fence_json response)).

(** What every [catch] block throws ([console.error] only logs). *)
Definition parse_failure : exn :=
  Error "Failed to parse AI response. Please try again.".

Definition parseExplainerResponse (response : jsstring)
  : result ExplainerResult.t :=
  try_catch
    (let cleaned := clean response in
     data <- parse cleaned ;;
     summary <- data.["summary"] <|> Ok (str "Analysis completed.") ;;
     explanations <- data.["explanations"] <|> Ok (VArr []) ;;
     Ok (ExplainerResult.mk summary explanations))
    (fun _ => Throw parse_failure).

Definition parseBugFinderResponse (response : jsstring)
  : result BugFinderResult.t :=
  try_catch
    (let cleaned := clean response in
     data <- parse cleaned ;;
     bugs <- data.["bugs"] <|> Ok (VArr []) ;;
     totalCount <- data.["totalCount"]
                   <|> (b <- data.["bugs"] ;; get_opt b "length")
                   <|> Ok (num 0) ;;
     severitySummary <- data.["severitySummary"]
                        <|> Ok (zeros ["critical"; "high"; "medium"; "low"]) ;;
     Ok (BugFinderResult.mk bugs totalCount severitySummary))
    (fun _ => Throw parse_failure).

Definition parseRefactoringResponse (response : jsstring)
  : result RefactorResult.t :=
  try_catch
    (let cleaned := clean response in
     data <- parse cleaned ;;
     suggestions <- data.["suggestions"] <|> Ok (VArr []) ;;
     overallScore <- data.["overallScore"] <|> Ok (num 70) ;;
     Ok (RefactorResult.mk suggestions overallScore))
    (fun _ => Throw parse_failure).

Definition parseCodeSmellResponse (response : jsstring)
  : result CodeSmellResult.t :=
  try_catch
    (let cleaned := clean response in
     data <- parse cleaned ;;
     smells <- data.["smells"] <|> Ok (VArr []) ;;
     totalCount <- (s <- data.["smells"] ;; get_opt s "length")
                   <|> Ok (num 0) ;;
     categorySummary <- data.["categorySummary"]
                        <|> Ok (zeros ["bloaters"; "oo-abusers";
                                       "change-preventers"; "dispensables";
                                       "couplers"]) ;;
     overallHealthScore <- data.["overallHealthScore"] <|> Ok (num 70) ;;
     Ok (CodeSmellResult.mk smells totalCount categorySummary
                            overallHealthScore))
    (fun _ => Throw parse_failure).

Definition parseComplexityResponse (response : jsstring)
  : result ComplexityResult.t :=
  try_catch
    (let cleaned := clean response in
     data <- parse cleaned ;;
     functions <- data.["functions"] <|> Ok (VArr []) ;;
     overallMetrics <- data.["overallMetrics"]
                       <|> Ok (zeros ["averageCyclomaticComplexity";
                                      "averageCognitiveComplexity";
                                      "maxNestingDepth"; "totalFunctions";
                                      "complexFunctions"]) ;;
     maintainabilityIndex <- data.["maintainabilityIndex"] <|> Ok (num 70) ;;
     recommendations <- data.["recommendations"] <|> Ok (VArr []) ;;
     Ok (ComplexityResult.mk functions overallMetrics maintainabilityIndex
                             recommendations))
    (fun _ => Throw parse_failure).

Definition parseSecurityResponse (response : jsstring)
  : result SecurityResult.t :=
  try_catch
    (let cleaned := clean response in
     data <- parse cleaned ;;
     vulnerabilities <- data.["vulnerabilities"] <|> Ok (VArr []) ;;
     totalCount <- (v <- data.["vulnerabilities"] ;; get_opt v "length")
                   <|> Ok (num 0) ;;
     severitySummary <- data.["severitySummary"]
                        <|> Ok (zeros ["critical"; "high"; "medium"; "low";
                                       "info"]) ;;
     categorySummary <- data.["categorySummary"]
                        <|> Ok (zeros ["injection"; "broken-auth";
                                       "sensitive-data"; "xxe";
                                       "broken-access"; "security-misconfig";
                                       "xss"; "insecure-deserialization";
                                       "vulnerable-components";
                                       "logging-monitoring"]) ;;
     securityScore <- data.["securityScore"] <|> Ok (num 70) ;;
     recommendations <- data.["recommendations"] <|> Ok (VArr []) ;;
     Ok (SecurityResult.mk vulnerabilities totalCount severitySummary
                           categorySummary securityScore recommendations))
    (fun _ => Throw parse_failure).

End AiService.
Import AiService.

(* ===================================================================== *)
(** ** The detector as the specification words it *)
(* ===================================================================== *)

(** The specification describes the detector as an ordered list of language
    signatures, the first matching one giving the tag.  [cascade] is that
    list; [detectLanguage_cascade] below relates it to the source's chain
    of [if] statements. *)
Module DetectorSpec.

Record probe_input : Type :=
  { trimmedCode : jsstring; lines : list jsstring; codeContent : jsstring }.

Definition probe_input_of (code : jsstring) : probe_input :=
  {| trimmedCode := trim code;
     lines := lines_of (trim code);
     codeContent := content_of (lines_of (trim code)) |}.

Definition sig_python (i : probe_input) : bool :=
  test re_python1 (codeContent i)
  || test re_python2 (first_line (lines i))
  || test re_python3 (codeContent i).

Definition sig_java (i : probe_input) : bool :=
  test re_java1 (codeContent i) || test re_java2 (codeContent i)
  || test re_java3 (codeContent i) || test re_java4 (codeContent i).

Definition sig_csharp (i : probe_input) : bool :=
  test re_csharp1 (codeContent i) || test re_csharp2 (codeContent i)
  || test re_csharp3 (codeContent i) || test re_csharp4 (codeContent i).

Definition sig_cpp (i : probe_input) : bool :=
  test re_cpp1 (codeContent i) || test re_cpp2 (codeContent i)
  || test re_cpp3 (codeContent i).

Definition sig_go (i : probe_input) : bool :=
  test re_go1 (trimmedCode i) || test re_go2 (codeContent i)
  || test re_go3 (codeContent i) || test re_go4 (codeContent i)
  || test re_go5 (codeContent i).

Definition sig_rust (i : probe_input) : bool :=
  test re_rust1 (codeContent i) || test re_rust2 (codeContent i)
  || test re_rust3 (codeContent i) || test re_rust4 (codeContent i)
  || test re_rust5 (codeContent i).

Definition sig_ruby (i : probe_input) : bool :=
  test re_ruby1 (codeContent i) || test re_ruby2 (codeContent i)
  || (test re_ruby3a (codeContent i) && test re_ruby3b (codeContent i)).

Definition sig_php (i : probe_input) : bool :=
  test re_php1 (trimmedCode i) || test re_php2 (codeContent i)
  || (test re_php3a (codeContent i) && test re_php3b (codeContent i))
  || test re_php4 (codeContent i).

Definition sig_typescript (i : probe_input) : bool :=
  test re_ts1 (codeContent i) || test re_ts2 (codeContent i)
  || test re_ts3 (codeContent i)
  || (test re_ts4a (codeContent i) && test re_ts4b (codeContent i))
  || test re_ts5 (codeContent i) || test re_ts6 (codeContent i).

Definition sig_javascript (i : probe_input) : bool :=
  test re_js1 (codeContent i) || test re_js2 (codeContent i)
  || test re_js3 (codeContent i) || test re_js4 (codeContent i).

Definition cascade : list (string * (probe_input -> bool)) :=
  [ ("python", sig_python); ("java", sig_java); ("csharp", sig_csharp);
    ("cpp", sig_cpp); ("go", sig_go); ("rust", sig_rust);
    ("ruby", sig_ruby); ("php", sig_php);
    ("typescript", sig_typescript); ("javascript", sig_javascript) ]%string.

(** The tag of the first signature of [c] that holds of [i]. *)
Fixpoint first_match (c : list (string * (probe_input -> bool)))
         (i : probe_input) : option string :=
  match c with
  | [] => None
  | (tag, sig) :: c' => if sig i then Some tag else first_match c' i
  end.

Definition blank (code : jsstring) : bool := is_empty (trim code).

Definition detect (code : jsstring) : jsstring :=
  if blank code then lit "javascript"
  else match first_match cascade (probe_input_of code) with
       | Some tag => lit tag
       | None => lit "javascript"
       end.

(** The closed set of language tags (SUPPORTED_LANGUAGES of
    src/types/index.ts). *)
Definition language_tags : list jsstring :=
  map lit [ "javascript"; "typescript"; "python"; "java"; "csharp"; "cpp";
            "go"; "rust"; "ruby"; "php" ]%string.

End DetectorSpec.
Import DetectorSpec.

(* ===================================================================== *)
(** ** The normalizers in closed form *)
(* ===================================================================== *)

(** What [data.name || d] and [data.list?.length] come to when [data] is
    not null; used to state what the normalizers return. *)
Module NormalizerSpec.

(** The value of [data.name] when the access does not throw. *)
Definition prop (data : value) (name : string) : value :=
  match get data name with
  | Ok x => x
  | Throw _ => VUndefined
  end.

(** The value of [v?.length]. *)
Definition length_of (v : value) : value :=
  match get_opt v "length" with
  | Ok x => x
  | Throw _ => VUndefined
  end.

(** [x || d] on values. *)
Definition dflt (x d : value) : value := if truthy x then x else d.

Definition non_null (v : value) : bool :=
  match v with
  | VUndefined | VNull => false
  | _ => true
  end.

(** A field the response leaves out, or gives as null, false or the
    empty string. *)
Definition missing (v : value) : bool :=
  match v with
  | VUndefined | VNull | VBool false | VStr [] => true
  | _ => false
  end.

(** [v] is an object holding a number under each of [keys]. *)
Definition has_number_keys (keys : list string) (v : value) : bool :=
  match v with
  | VObj props =>
      forallb (fun k => match obj_get (lit k) props with
                        | Some (VNum _) => true
                        | _ => false
                        end) keys
  | _ => false
  end.

Definition owasp_keys : list string :=
  [ "injection"; "broken-auth"; "sensitive-data"; "xxe"; "broken-access";
    "security-misconfig"; "xss"; "insecure-deserialization";
    "vulnerable-components"; "logging-monitoring" ]%string.

Definition smell_keys : list string :=
  [ "bloaters"; "oo-abusers"; "change-preventers"; "dispensables";
    "couplers" ]%string.

Definition throws {A : Type} (r : result A) : Prop := exists e, r = Throw e.

(** A text [JSON.parse] rejects, or reads as [null]. *)
Definition unusable (text : jsstring) : Prop :=
  JSON_parse text = None \/ JSON_parse text = Some VNull.

(** [r] is the field [x] of the response when that is truthy, and the
    default [d] when the field is missing. *)
Definition passes (x d r : value) : Prop :=
  (truthy x = true -> r = x) /\ (missing x = true -> r = d).

(** [r] counts the list [lst] of the response: its length when it is an
    array, [0] when it is missing. *)
Definition counted (lst r : value) : Prop :=
  (forall items, lst = VArr items ->
                 r = VNum (num_of_nat (List.length items)))
  /\ (missing lst = true -> r = VNum (num_of_N 0)).

(** A JSON text written with apostrophes in place of double quotes. *)
Definition json (s : string) : jsstring :=
  map (fun c => if N.eqb c 39 then 34%N else c) (lit s).

End NormalizerSpec.
Import NormalizerSpec.

(* ===================================================================== *)
(** ** Inputs used below *)
(* ===================================================================== *)

Module Inputs.

Local Open Scope string_scope.
Local Open Scope list_scope.

(** Three spaces. *)
Definition blank_input : jsstring := lit "   ".

(** The snippet of the specification: [def f():], a line feed, and
    [  return x]. *)
Definition def_snippet : jsstring :=
  lit "def f():" ++ LF :: lit "  return x".

(** A comment line ending with a colon, followed by a Java class. *)
Definition comment_then_java : jsstring :=
  lit "// note:" ++ LF :: lit "public class Foo {}".

(** A response whose category histogram has one key only. *)
Definition partial_histogram : jsstring :=
  json "{'categorySummary': {'xss': 1}}".


(** The response of the specification with an explicit score of 0. *)
Definition zero_score : jsstring :=
  json "{'overallScore': 0, 'suggestions': []}".

(** The fenced response of the specification, with a score of 42. *)
Definition fenced_score : jsstring :=
  lit "```json" ++ LF :: json "{'overallScore': 42, 'suggestions': []}"
      ++ LF :: lit "```".

(** A key of four Cyrillic letters. *)
Definition cyrillic_key : jsstring := [1082; 1083; 1102; 1095]%N.

(** A fence-free text with a space on either side. *)
Definition padded_object : jsstring := lit " {} ".

End Inputs.
Import Inputs.

(** What the fence lemmas are stated with. *)
Module FenceSpec.

(** The fence marker, three backticks; both patterns start with it. *)
Definition fence_marker : jsstring := lit "```".

(** The pattern of a fence: the literal [l], then an optional line
    feed. *)
Definition fence_of (l : jsstring) : regex := Seq (chars l) (Opt (Chr LF)).

(** The number of backticks [s] starts with. *)
Fixpoint lead (s : jsstring) : nat :=
  match s with
  | c :: t => if N.eqb BACKTICK c then S (lead t) else O
  | [] => O
  end.

End FenceSpec.
Import FenceSpec.

(* ===================================================================== *)
(** ** More on characters *)
(* ===================================================================== *)

Module Chars.

(** The characters [/[^\x00-\x7F]/] does not match. *)
Definition is_ascii (c : char) : bool := N.leb c 127.

(** What [toLowerCase] does to an ASCII character. *)
Definition ascii_lower (c : char) : char :=
  if (N.leb 65 c && N.leb c 90)%bool then (c + 32)%N else c.

(** The characters a JSON token can begin with: the six structural
    characters, the quote, the minus sign, a digit, and the first letters
    of [true], [false] and [null]. *)
Definition begins_token (c : char) : bool :=
  (N.eqb c 123 || N.eqb c 125 || N.eqb c 91 || N.eqb c 93 || N.eqb c 58
   || N.eqb c 44 || N.eqb c 34 || N.eqb c 45 || is_digit c
   || N.eqb c 116 || N.eqb c 102 || N.eqb c 110)%bool.

(** A response wrapped in a fence: the opening marker with its tag, a
    line feed, the body, a line feed, the closing marker. *)
Definition fenced (tag body : jsstring) : jsstring :=
  fence_marker ++ tag ++ LF :: body ++ LF :: fence_marker.

End Chars.
Import Chars.

(* ===================================================================== *)
(** ** The gateway: [callAI] and the analysis functions *)
(* ===================================================================== *)

(** The three provider calls go over the network; they are parameters
    here, each giving the response text or what it throws. *)
Module Gateway.

(** What a JavaScript [catch] can receive: an [Error] object (of any
    subclass) with its name and message, or a value that is not an
    [Error]. *)
Inductive thrown : Type :=
| ErrorObject (name : string) (message : jsstring)
| NotAnError.

Inductive outcome (A : Type) : Type :=
| Returned (a : A)
| Thrown (t : thrown).
Arguments Returned {A} a.
Arguments Thrown {A} t.

(** [new Error(message)] for a literal message. *)
Definition new_Error (message : string) : thrown :=
  ErrorObject "Error" (lit message).

(** [AIProvider] and [AIConfig] of src/types/ai-config.ts. *)
Inductive AIProvider : Type := openai | anthropic | google.

Record AIConfig : Type :=
  { provider : AIProvider; model : jsstring; apiKey : jsstring }.

(** The string a provider is at run time. *)
Definition provider_name (p : AIProvider) : string :=
  match p with
  | openai => "openai"
  | anthropic => "anthropic"
  | google => "google"
  end.

Definition key_required : thrown :=
  new_Error "API key is required. Please enter your API key in the AI Configuration section.".
Definition invalid_characters : thrown :=
  new_Error "Invalid characters in API request. Please check your API key and try again.".
Definition unexpected_error : thrown :=
  new_Error "An unexpected error occurred during API call.".

(** The [catch] block of [callAI]. *)
Definition callAI_catch (error : thrown) : thrown :=
  match error with
  | ErrorObject _ message =>
      if includes message (lit "ISO-8859-1") then invalid_characters
      else error
  | NotAnError => unexpected_error
  end.

Section Providers.

Variables callOpenAI callAnthropic callGoogle
  : jsstring -> AIConfig -> outcome jsstring.

(** [callAI]; the [default] case of its [switch] is outside the type of
    [config.provider]. *)
Definition callAI (prompt : jsstring) (config : AIConfig) : outcome jsstring :=
  if apiKey_missing (apiKey config) then Thrown key_required
  else
    let attempt :=
      match provider config with
      | openai => callOpenAI prompt config
      | anthropic => callAnthropic prompt config
      | google => callGoogle prompt config
      end in
    match attempt with
    | Returned text => Returned text
    | Thrown error => Thrown (callAI_catch error)
    end.

(** A normalizer's exception as the caller's [catch] receives it.  The
    normalizers let nothing but their own [Error] escape; the messages of
    the two built-in errors vary by engine and are left empty. *)
Definition of_exn (e : exn) : thrown :=
  match e with
  | SyntaxError => ErrorObject "SyntaxError" []
  | TypeError => ErrorObject "TypeError" []
  | Error message => ErrorObject "Error" (lit message)
  end.

(** The shape shared by the six [analyze*] functions: build the prompt,
    call the provider, normalize the response.  The prompt is a template
    over the code and the language. *)
Definition analyze {A : Type} (build_prompt : jsstring -> jsstring -> jsstring)
           (normalize : jsstring -> result A)
           (code language : jsstring) (aiConfig : AIConfig) : outcome A :=
  match callAI (build_prompt code language) aiConfig with
  | Returned response =>
      match normalize response with
      | Ok r => Returned r
      | Throw e => Thrown (of_exn e)
      end
  | Thrown t => Thrown t
  end.

End Providers.

(** A provider call that fails the way [fetch] does on a header it cannot
    encode. *)
Definition header_failure : jsstring -> AIConfig -> outcome jsstring :=
  fun _ _ =>
    Thrown (ErrorObject "TypeError"
              (lit "Failed to execute 'fetch': String contains non ISO-8859-1 code point.")).

End Gateway.
Import Gateway.

(* ===================================================================== *)
(** ** The configuration panel (src/components/AIConfigPanel.tsx) *)
(* ===================================================================== *)

Module ConfigPanel.

Import Gateway.

Local Open Scope string_scope.
Local Open Scope list_scope.

(** The model ids of AI_MODELS (src/types/ai-config.ts), by provider. *)
Definition AI_MODELS (p : AIProvider) : list string :=
  match p with
  | openai => ["gpt-4-turbo"; "gpt-4"; "gpt-4o"; "gpt-4o-mini"]
  | anthropic => ["claude-3-5-sonnet-20241022"; "claude-3-5-sonnet-20240620";
                  "claude-3-opus-20240229"; "claude-3-sonnet-20240229"]
  | google => ["gemini-2.0-flash-exp"; "gemini-1.5-pro"; "gemini-1.5-flash"]
  end.

(** [AI_MODELS[config.provider] || []] *)
Definition availableModels (config : AIConfig) : list string :=
  AI_MODELS (provider config).

(** [AI_MODELS[provider]?.[0]?.id || 'gpt-4o-mini'] *)
Definition defaultModel (p : AIProvider) : jsstring :=
  match AI_MODELS p with
  | m :: _ => if is_empty (lit m) then lit "gpt-4o-mini" else lit m
  | [] => lit "gpt-4o-mini"
  end.

(** [handleProviderChange]: the new configuration handed to [onChange]. *)
Definition handleProviderChange (config : AIConfig) (p : AIProvider) : AIConfig :=
  {| provider := p; model := defaultModel p; apiKey := apiKey config |}.

(** The [onChange] of the model selector, [{ ...config, model }]. *)
Definition handleModelChange (config : AIConfig) (m : jsstring) : AIConfig :=
  {| provider := provider config; model := m; apiKey := apiKey config |}.

(** The [onChange] of the key input, [{ ...config, apiKey }]. *)
Definition handleApiKeyChange (config : AIConfig) (k : jsstring) : AIConfig :=
  {| provider := provider config; model := model config; apiKey := k |}.

(** What the user can do in the panel: pick a provider, pick one of the
    models offered for the current provider, edit the key. *)
Inductive action : Type :=
| PickProvider (p : AIProvider)
| PickModel (m : string)
| TypeKey (k : jsstring).

Definition offered (config : AIConfig) (a : action) : Prop :=
  match a with
  | PickProvider _ => True
  | PickModel m => In m (availableModels config)
  | TypeKey _ => True
  end.

Definition perform (config : AIConfig) (a : action) : AIConfig :=
  match a with
  | PickProvider p => handleProviderChange config p
  | PickModel m => handleModelChange config (lit m)
  | TypeKey k => handleApiKeyChange config k
  end.

(** Configurations reached from [config] by offered actions. *)
Inductive reaches (config : AIConfig) : AIConfig -> Prop :=
| reaches_refl : reaches config config
| reaches_step c a : reaches config c -> offered c a ->
                     reaches config (perform c a).

(** The model is one of those listed for the provider. *)
Definition consistent (config : AIConfig) : Prop :=
  exists m, In m (availableModels config) /\ model config = lit m.

End ConfigPanel.
Import ConfigPanel.

(* ===================================================================== *)
(** ** The application state and its handlers (src/App.tsx) *)
(* ===================================================================== *)

Module Toast.
Inductive kind : Type := success | error | warning | info.
Record t : Type := mk { id : jsstring; message : jsstring; type : kind }.
End Toast.

Module App.

Import Gateway.

Local Open Scope string_scope.
Local Open Scope list_scope.

Inductive FeatureType : Type :=
| explainer | bugs | refactor | smells | complexity | security.

(** What the [language] state can hold: a string, or a member that the
    extension table inherits from [Object.prototype]. *)
Inductive language_value : Type :=
| LangString (s : jsstring)
| LangInherited (member : string).

Record state : Type :=
  { selectedFeature : FeatureType;
    code : jsstring;
    language : language_value;
    showResults : bool;
    isAnalyzing : bool;
    toasts : list Toast.t;
    aiConfig : AIConfig }.

(** The initial values of the [useState] calls. *)
Definition initial : state :=
  {| selectedFeature := explainer;
     code := [];
     language := LangString (lit "javascript");
     showResults := false;
     isAnalyzing := false;
     toasts := [];
     aiConfig := {| provider := openai; model := lit "gpt-4o-mini";
                    apiKey := [] |} |}.

Definition setCode (st : state) (c : jsstring) : state :=
  {| selectedFeature := selectedFeature st; code := c;
     language := language st; showResults := showResults st;
     isAnalyzing := isAnalyzing st; toasts := toasts st;
     aiConfig := aiConfig st |}.

Definition setLanguage (st : state) (l : language_value) : state :=
  {| selectedFeature := selectedFeature st; code := code st;
     language := l; showResults := showResults st;
     isAnalyzing := isAnalyzing st; toasts := toasts st;
     aiConfig := aiConfig st |}.

Definition setShowResults (st : state) (b : bool) : state :=
  {| selectedFeature := selectedFeature st; code := code st;
     language := language st; showResults := b;
     isAnalyzing := isAnalyzing st; toasts := toasts st;
     aiConfig := aiConfig st |}.

Definition setSelectedFeature (st : state) (f : FeatureType) : state :=
  {| selectedFeature := f; code := code st;
     language := language st; showResults := showResults st;
     isAnalyzing := isAnalyzing st; toasts := toasts st;
     aiConfig := aiConfig st |}.

Definition setIsAnalyzing (st : state) (b : bool) : state :=
  {| selectedFeature := selectedFeature st; code := code st;
     language := language st; showResults := showResults st;
     isAnalyzing := b; toasts := toasts st;
     aiConfig := aiConfig st |}.

Definition setToasts (st : state) (ts : list Toast.t) : state :=
  {| selectedFeature := selectedFeature st; code := code st;
     language := language st; showResults := showResults st;
     isAnalyzing := isAnalyzing st; toasts := ts;
     aiConfig := aiConfig st |}.

Definition setAiConfig (st : state) (c : AIConfig) : state :=
  {| selectedFeature := selectedFeature st; code := code st;
     language := language st; showResults := showResults st;
     isAnalyzing := isAnalyzing st; toasts := toasts st;
     aiConfig := c |}.

(** [showToast]; [now] is [Date.now().toString()]. *)
Definition showToast (st : state) (now : jsstring) (message : jsstring)
           (type : Toast.kind) : state :=
  setToasts st (toasts st ++ [Toast.mk now message type]).

Definition removeToast (st : state) (id : jsstring) : state :=
  setToasts st (filter (fun toast => negb (str_eqb (Toast.id toast) id))
                       (toasts st)).

(** [a !== b] on what the language state can hold. *)
Definition language_differs (a b : language_value) : bool :=
  match a, b with
  | LangString x, LangString y => negb (str_eqb x y)
  | LangInherited x, LangInherited y => negb (String.eqb x y)
  | _, _ => true
  end.

Definition handleCodeChange (st : state) (newCode : jsstring) : state :=
  let st1 := setCode st newCode in
  if (List.length (code st) + 10 <? List.length newCode)%nat then
    let detectedLanguage := detectLanguage newCode in
    if language_differs (LangString detectedLanguage) (language st)
    then setLanguage st1 (LangString detectedLanguage)
    else st1
  else st1.

(** [s.split(sep)] for a separator of one character. *)
Fixpoint split_on (sep : char) (s : jsstring) : list jsstring :=
  match s with
  | [] => [[]]
  | c :: t =>
      if N.eqb c sep then [] :: split_on sep t
      else match split_on sep t with
           | l :: ls => (c :: l) :: ls
           | [] => [[c]]
           end
  end.

Definition DOT : char := 46%N.

(** The own properties of [languageMap]. *)
Definition languageMap : list (string * string) :=
  [ ("js", "javascript"); ("jsx", "javascript"); ("ts", "typescript");
    ("tsx", "typescript"); ("py", "python"); ("java", "java");
    ("cs", "csharp"); ("cpp", "cpp"); ("cc", "cpp"); ("cxx", "cpp");
    ("go", "go"); ("rs", "rust"); ("rb", "ruby"); ("php", "php") ].

(** The members every object literal inherits from [Object.prototype];
    each is a function or an object, hence truthy. *)
Definition object_prototype_members : list string :=
  [ "constructor"; "__defineGetter__"; "__defineSetter__";
    "hasOwnProperty"; "__lookupGetter__"; "__lookupSetter__";
    "isPrototypeOf"; "propertyIsEnumerable"; "toString"; "valueOf";
    "__proto__"; "toLocaleString" ].

Fixpoint own (table : list (string * string)) (k : jsstring) : option string :=
  match table with
  | [] => None
  | (k', v) :: rest => if str_eqb k (lit k') then Some v else own rest k
  end.

Fixpoint inherited (members : list string) (k : jsstring) : option string :=
  match members with
  | [] => None
  | m :: rest => if str_eqb k (lit m) then Some m else inherited rest k
  end.

(** [languageMap[extension]]; [None] is [undefined]. *)
Definition languageMap_get (extension : jsstring) : option language_value :=
  match own languageMap extension with
  | Some tag => Some (LangString (lit tag))
  | None =>
      match inherited object_prototype_members extension with
      | Some m => Some (LangInherited m)
      | None => None
      end
  end.

(** [provider.toUpperCase()] *)
Definition provider_upper (p : AIProvider) : jsstring :=
  match p with
  | openai => lit "OPENAI"
  | anthropic => lit "ANTHROPIC"
  | google => lit "GOOGLE"
  end.

(** A chosen file: its name and its size in bytes. *)
Record file : Type := { name : jsstring; size : N }.

Section Builtins.

(** [String.prototype.toLowerCase], which follows the Unicode case
    tables. *)
Variable toLowerCase : jsstring -> jsstring.

(** [file.name.split('.').pop()?.toLowerCase()]; [split] gives at least
    one piece, so [pop] is never [undefined]. *)
Definition extension_of (fileName : jsstring) : jsstring :=
  toLowerCase (last (split_on DOT fileName) []).

(** The [onload] callback of the file reader. *)
Definition reader_onload (st : state) (fileName content : jsstring) : state :=
  let st1 := setCode st content in
  let extension := extension_of fileName in
  let st2 :=
    match (if is_empty extension then None else languageMap_get extension) with
    | Some l => setLanguage st1 l
    | None =>
        let detectedLanguage := detectLanguage content in
        setLanguage st1 (LangString detectedLanguage)
    end in
  setShowResults st2 false.

(** The [onerror] callback of the file reader. *)
Definition reader_onerror (st : state) (now : jsstring) : state :=
  showToast st now (lit "Error reading file. Please try again.") Toast.error.

(** [handleFileUpload] up to the start of the read: the new state, and
    the file handed to the reader if any. *)
Definition handleFileUpload (st : state) (chosen : option file)
           (now : jsstring) : state * option file :=
  match chosen with
  | None => (st, None)
  | Some f =>
      if (1024 * 1024 <? size f)%N then
        (showToast st now (lit "File size must be less than 1MB") Toast.error,
         None)
      else (st, Some f)
  end.

Definition handleAnalyze (st : state) (now : jsstring) : state :=
  if is_empty (trim (code st)) then
    showToast st now (lit "Please enter some code to analyze") Toast.warning
  else if is_empty (apiKey (aiConfig st)) then
    showToast st now
      (lit "Please enter your " ++ provider_upper (provider (aiConfig st))
           ++ lit " API key in the AI Configuration section")
      Toast.error
  else setShowResults st true.

Definition handleClear (st : state) : state :=
  setShowResults (setCode st []) false.

(** Everything that changes the state. *)
Inductive event : Type :=
| CodeChange (newCode : jsstring)                 (* the editor *)
| FileChosen (chosen : option file) (now : jsstring)
| FileLoaded (fileName content : jsstring)        (* the reader's onload *)
| FileFailed (now : jsstring)                     (* the reader's onerror *)
| Analyze (now : jsstring)
| Clear
| SelectFeature (f : FeatureType)
| SelectLanguage (tag : jsstring)                 (* the language selector *)
| ConfigChange (c : AIConfig)                     (* the configuration panel *)
| LoadingChange (b : bool)                        (* a feature component *)
| ToastClosed (id : jsstring).

Definition step (st : state) (e : event) : state :=
  match e with
  | CodeChange newCode => handleCodeChange st newCode
  | FileChosen chosen now => fst (handleFileUpload st chosen now)
  | FileLoaded fileName content => reader_onload st fileName content
  | FileFailed now => reader_onerror st now
  | Analyze now => handleAnalyze st now
  | Clear => handleClear st
  | SelectFeature f => setShowResults (setSelectedFeature st f) false
  | SelectLanguage tag => setLanguage st (LangString tag)
  | ConfigChange c => setAiConfig st c
  | LoadingChange b => setIsAnalyzing st b
  | ToastClosed id => removeToast st id
  end.

Definition run (st : state) (es : list event) : state := fold_left step es st.

(** The events the page can produce: the language selector offers the ten
    tags, and no loaded file has an extension that names a member of
    [Object.prototype]. *)
Definition ordinary (e : event) : Prop :=
  match e with
  | SelectLanguage tag => In tag language_tags
  | FileLoaded fileName _ =>
      inherited object_prototype_members (extension_of fileName) = None
  | _ => True
  end.

End Builtins.

(** The language state holds one of the ten tags. *)
Definition language_ok (st : state) : Prop :=
  exists tag, In tag language_tags /\ language st = LangString tag.

End App.

(* ===================================================================== *)
(** ** More ways to describe a response and a result *)
(* ===================================================================== *)

Module ResultSpec.

(** A JSON value that is neither an object nor [null]: an array, a string,
    a number or a boolean. *)
Definition not_an_object (v : value) : bool :=
  match v with
  | VArr _ | VStr _ | VNum _ | VBool _ => true
  | _ => false
  end.

(** A field that is truthy, or the number 0 a count defaults to. *)
Definition truthy_or_zero (v : value) : Prop :=
  truthy v = true \/ v = VNum (num_of_N 0).

(** A total that agrees with the findings: whenever the findings are an
    array, the total is its length. *)
Definition agrees (findings total : value) : Prop :=
  forall items, findings = VArr items ->
                total = VNum (num_of_nat (List.length items)).

End ResultSpec.
Import ResultSpec.

(* ===================================================================== *)
(** ** The openers of the first Python probe *)
(* ===================================================================== *)

Module Openers.

(** The alternatives of [re_python1]: each, at the head of the content
    and followed by a white space character, makes the probe match. *)
Definition python_openers : list string :=
  [ "def"; "class"; "import"; "from"; "if __name__"; "print(";
    "async def" ]%string.

(** A Java file that begins with an import. *)
Definition java_with_import : jsstring :=
  lit "import java.util.List;" ++ LF :: lit "public class A {}".

End Openers.
Import Openers.

(* ===================================================================== *)
(** ** Facts about strings *)
(* ===================================================================== *)

Section StringFacts.

Lemma trimStart_spaces (s : jsstring) :
  forallb is_space s = true -> trimStart s = [].
Proof.
  induction s as [|c t IH]; simpl; [reflexivity|].
  intros H. apply andb_true_iff in H as [Hc Ht].
  rewrite Hc. now apply IH.
Qed.

Lemma trim_spaces (s : jsstring) : forallb is_space s = true -> trim s = [].
Proof. intros H. unfold trim. now rewrite trimStart_spaces. Qed.

Lemma trimStart_head (s : jsstring) :
  trimStart s = [] \/
  exists c t, trimStart s = c :: t /\ is_space c = false.
Proof.
  induction s as [|c t IH]; simpl; [now left|].
  destruct (is_space c) eqn:E; [exact IH|].
  right. now exists c, t.
Qed.

Lemma trimEnd_head (c : char) (t : jsstring) :
  is_space c = false -> exists t', trimEnd (c :: t) = c :: t'.
Proof.
  intros H. simpl. destruct (trimEnd t) as [|x t'].
  - rewrite H. now exists [].
  - now exists (x :: t').
Qed.

Lemma trimEnd_idem (s : jsstring) : trimEnd (trimEnd s) = trimEnd s.
Proof.
  induction s as [|c t IH]; simpl; [reflexivity|].
  destruct (trimEnd t) as [|x t'] eqn:E.
  - destruct (is_space c) eqn:Hc; simpl; [reflexivity|].
    now rewrite Hc.
  - change (trimEnd (c :: x :: t')) with
      (match trimEnd (x :: t') with
       | [] => if is_space c then [] else [c]
       | y :: t'' => c :: y :: t''
       end).
    now rewrite IH.
Qed.

Lemma trim_idem (s : jsstring) : trim (trim s) = trim s.
Proof.
  unfold trim.
  destruct (trimStart_head s) as [E | (c & t & E & Hc)]; rewrite E.
  - reflexivity.
  - destruct (trimEnd_head c t Hc) as [t' E'].
    rewrite E'. simpl trimStart. rewrite Hc, <- E'.
    apply trimEnd_idem.
Qed.

Lemma trimEnd_prefix (s : jsstring) : exists w, s = trimEnd s ++ w.
Proof.
  induction s as [|c t [w IH]]; simpl; [now exists []|].
  destruct (trimEnd t) as [|x t'].
  - destruct (is_space c).
    + now exists (c :: t).
    + exists w. simpl. now rewrite IH at 1.
  - exists w. simpl. now rewrite IH at 1.
Qed.

Lemma trimStart_suffix (s : jsstring) : exists w, s = w ++ trimStart s.
Proof.
  induction s as [|c t [w IH]]; simpl; [now exists []|].
  destruct (is_space c).
  - exists (c :: w). simpl. now rewrite <- IH.
  - now exists [].
Qed.

Lemma split_lines_nonempty (s : jsstring) : split_lines s <> [].
Proof.
  induction s as [|c t IH]; simpl; [discriminate|].
  destruct (N.eqb c LF); [discriminate|].
  destruct (split_lines t); discriminate.
Qed.

Lemma first_line_lines_of (s : jsstring) :
  first_line (lines_of s) = trim (first_line (split_lines s)).
Proof.
  unfold lines_of, first_line.
  pose proof (split_lines_nonempty s) as H.
  destruct (split_lines s); [contradiction|reflexivity].
Qed.

End StringFacts.

(* ===================================================================== *)
(** ** The matcher never runs short of rounds *)
(* ===================================================================== *)

Section RegexFacts.

Variable f : pos -> list pos.

Lemma flat_map_agree (g h : pos -> list pos) (l : list pos) :
  (forall q, In q l -> g q = h q) -> flat_map g l = flat_map h l.
Proof.
  induction l as [|q l IH]; intros H; simpl; [reflexivity|].
  rewrite (H q (or_introl eq_refl)), IH; [reflexivity|].
  intros q' Hq'. apply H. now right.
Qed.

(** One more round than the length of the rest changes nothing. *)
Lemma star_iter_extra (n : nat) (p : pos) :
  (List.length (rest p) <= n)%nat -> star_iter f (S n) p = star_iter f n p.
Proof.
  revert p. induction n as [|n IH]; intros p H.
  - cbn [star_iter]. replace (filter (shorter p) (f p)) with (@nil pos);
      [reflexivity|].
    symmetry. induction (f p) as [|q l IHl]; [reflexivity|].
    cbn [filter]. unfold shorter at 1.
    replace (List.length (rest p)) with O by lia.
    destruct (Nat.ltb_spec (List.length (rest q)) 0); [lia | exact IHl].
  - change (star_iter f (S (S n)) p)
      with (flat_map (star_iter f (S n)) (filter (shorter p) (f p)) ++ [p]).
    change (star_iter f (S n) p)
      with (flat_map (star_iter f n) (filter (shorter p) (f p)) ++ [p]).
    f_equal. apply flat_map_agree. intros q Hq.
    apply filter_In in Hq as [_ Hq]. unfold shorter in Hq.
    apply Nat.ltb_lt in Hq. apply IH. lia.
Qed.

(** Any number of rounds from the length of the rest on gives the same
    iterations: the bound in [matches] loses no match. *)
Lemma star_iter_enough (n : nat) (p : pos) :
  (List.length (rest p) <= n)%nat ->
  star_iter f n p = star_iter f (List.length (rest p)) p.
Proof.
  induction n as [|n IH]; intros H.
  - now replace (List.length (rest p)) with O by lia.
  - destruct (Nat.eq_dec (List.length (rest p)) (S n)) as [E|E].
    + now rewrite E.
    + rewrite star_iter_extra by lia. apply IH. lia.
Qed.

End RegexFacts.

(* ===================================================================== *)
(** ** The language detector: theorems *)
(* ===================================================================== *)

Section DetectorFacts.

(** The chain of [if] statements of the source is the first-match rule
    over [cascade]. *)
Lemma detectLanguage_cascade (code : jsstring) :
  detectLanguage code = detect code.
Proof.
  unfold detectLanguage, detect, blank.
  assert (G : is_empty code || (List.length (trim code) =? 0)%nat
              = is_empty (trim code)).
  { destruct code as [|c t]; [reflexivity|].
    simpl is_empty at 1. rewrite orb_false_l.
    destruct (trim (c :: t)); reflexivity. }
  rewrite G. destruct (is_empty (trim code)); [reflexivity|].
  cbv beta iota zeta delta
    [first_match cascade probe_input_of sig_python sig_java sig_csharp
     sig_cpp sig_go sig_rust sig_ruby sig_php sig_typescript
     sig_javascript trimmedCode lines codeContent].
  repeat match goal with
         | |- (if ?c then _ else _) = _ => destruct c; [reflexivity|]
         end.
  reflexivity.
Qed.

Lemma first_match_tag (c : list (string * (probe_input -> bool)))
      (i : probe_input) (tag : string) :
  first_match c i = Some tag -> In tag (map fst c).
Proof.
  induction c as [|[t g] c IH]; simpl; [discriminate|].
  destruct (g i).
  - intros [= ->]. now left.
  - intros H. right. now apply IH.
Qed.

Lemma first_match_none (c : list (string * (probe_input -> bool)))
      (i : probe_input) :
  forallb (fun p => negb (snd p i)) c = true -> first_match c i = None.
Proof.
  induction c as [|[t g] c IH]; simpl; [reflexivity|].
  intros H. apply andb_true_iff in H as [Hg Hc].
  apply negb_true_iff in Hg. rewrite Hg. now apply IH.
Qed.

Lemma test_from_app (r : regex) (pre s : jsstring) (b : option char) :
  (forall b', matches_at r (Pos b' s) = true) ->
  test_from r b (pre ++ s) = true.
Proof.
  intros H. revert b. induction pre as [|c pre IH]; intros b.
  - simpl app. destruct s; simpl; now rewrite H.
  - simpl. rewrite IH. apply orb_true_r.
Qed.

(** [/:\s*$/] holds of every string whose last character is a colon. *)
Lemma python2_colon (pre : jsstring) :
  test re_python2 (pre ++ lit ":") = true.
Proof. apply test_from_app. intros b'. reflexivity. Qed.

End DetectorFacts.

Section DetectorClaims.

Local Open Scope string_scope.
Local Open Scope list_scope.

Lemma blank_false (code : jsstring) : trim code <> [] -> blank code = false.
Proof. unfold blank. destruct (trim code); [contradiction|reflexivity]. Qed.

Lemma blank_spaces (code : jsstring) :
  forallb is_space code = true -> blank code = true.
Proof. intros H. unfold blank. now rewrite trim_spaces. Qed.

(** C6.  [detectLanguage] is a total function into the ten language tags
    (its model returns a tag on every string, there is no failing path),
    and it returns the fallback [javascript] when the input is empty,
    consists of white space only, or matches no language signature. *)
Theorem detectLanguage_total (code : jsstring) :
  In (detectLanguage code) language_tags /\
  (code = [] \/ forallb is_space code = true
   \/ first_match cascade (probe_input_of code) = None ->
   detectLanguage code = lit "javascript").
Proof.
  rewrite detectLanguage_cascade. unfold detect. split.
  - destruct (blank code); [vm_compute; tauto|].
    destruct (first_match cascade (probe_input_of code)) as [tag|] eqn:E;
      [|vm_compute; tauto].
    apply first_match_tag in E. simpl in E.
    repeat (destruct E as [<- | E]; [vm_compute; tauto|]).
    contradiction.
  - intros [-> | [H | H]].
    + reflexivity.
    + now rewrite blank_spaces.
    + rewrite H. now destruct (blank code).
Qed.

Lemma detectLanguage_total_witness :
  In (detectLanguage blank_input) language_tags /\
  detectLanguage blank_input = lit "javascript".
Proof.
  destruct (detectLanguage_total blank_input) as [H1 H2].
  split; [exact H1|]. apply H2. right. left. reflexivity.
Defined.

(** C7.  The signatures are tried in the order Python, Java, C#, C++, Go,
    Rust, Ruby, PHP, TypeScript, JavaScript, and the tag returned is that
    of the first signature that matches.  The snippet [def_snippet] of the
    specification matches the Python signature and, of the later ones,
    Ruby's only; it does not match the JavaScript signature; it resolves
    to [python], not to [javascript]. *)
Theorem detectLanguage_priority_order :
  map fst cascade
  = ["python"; "java"; "csharp"; "cpp"; "go"; "rust"; "ruby"; "php";
     "typescript"; "javascript"]
  /\ (forall code earlier tag sig later,
         trim code <> [] ->
         cascade = earlier ++ (tag, sig) :: later ->
         forallb (fun p => negb (snd p (probe_input_of code))) earlier = true ->
         sig (probe_input_of code) = true ->
         detectLanguage code = lit tag)
  /\ sig_python (probe_input_of def_snippet) = true
  /\ sig_ruby (probe_input_of def_snippet) = true
  /\ sig_javascript (probe_input_of def_snippet) = false
  /\ (forall tag sig,
         In (tag, sig) cascade ->
         sig (probe_input_of def_snippet) = true ->
         tag = "python" \/ tag = "ruby")
  /\ detectLanguage def_snippet = lit "python"
  /\ detectLanguage def_snippet <> lit "javascript".
Proof.
  split; [reflexivity|]. split.
  - intros code earlier tag sig later Hne Hc Hpre Hsig.
    rewrite detectLanguage_cascade. unfold detect.
    rewrite (blank_false code Hne), Hc. clear Hc.
    induction earlier as [|[t g] earlier IH]; simpl in *.
    + now rewrite Hsig.
    + apply andb_true_iff in Hpre as [Hg Hpre].
      apply negb_true_iff in Hg. rewrite Hg. now apply IH.
  - repeat split; try now vm_compute.
    intros tag sig Hin Hs. unfold cascade in Hin. simpl in Hin.
    repeat (destruct Hin as [Hin | Hin];
            [ injection Hin as <- <-;
              first [ now left | now right
                    | vm_compute in Hs; discriminate ] |]).
    contradiction.
Qed.

(** None of the four JavaScript probes matches the snippet of the
    specification: its content, [def f():] and [return x] on two lines,
    holds none of their keywords. *)
Lemma def_snippet_has_no_javascript_signature :
  codeContent (probe_input_of def_snippet)
  = lit "def f():" ++ LF :: lit "return x"
  /\ test re_js1 (codeContent (probe_input_of def_snippet)) = false
  /\ test re_js2 (codeContent (probe_input_of def_snippet)) = false
  /\ test re_js3 (codeContent (probe_input_of def_snippet)) = false
  /\ test re_js4 (codeContent (probe_input_of def_snippet)) = false
  /\ sig_javascript (probe_input_of def_snippet) = false.
Proof. repeat split; vm_compute; reflexivity. Qed.

Lemma detectLanguage_priority_order_witness :
  detectLanguage (lit "interface Foo {}" ++ LF :: lit "console.log(1)")
  = lit "typescript".
Proof.
  destruct detectLanguage_priority_order as (_ & H & _).
  apply (H _ (firstn 8 cascade) "typescript" sig_typescript
           [("javascript", sig_javascript)]);
    [now vm_compute | reflexivity | now vm_compute | now vm_compute].
Defined.

(** C9.  When the input is not blank and the first line of the trimmed
    input, itself trimmed, ends with a colon, the result is [python],
    whatever the line starts with and whatever follows it: the probe
    reads the raw line list, before comments are dropped, and the Python
    test comes first. *)
Theorem first_line_colon_is_python (code pre : jsstring) :
  trim code <> [] ->
  trim (first_line (split_lines (trim code))) = pre ++ lit ":" ->
  detectLanguage code = lit "python".
Proof.
  intros Hne Hline.
  rewrite detectLanguage_cascade. unfold detect.
  rewrite (blank_false code Hne).
  assert (Hpy : sig_python (probe_input_of code) = true).
  { unfold sig_python, probe_input_of; cbn [lines codeContent].
    rewrite first_line_lines_of, Hline, python2_colon.
    now rewrite orb_true_r. }
  cbn [first_match cascade]. now rewrite Hpy.
Qed.

Lemma first_line_colon_is_python_witness :
  startsWith comment_then_java (lit "//") = true /\
  sig_java (probe_input_of comment_then_java) = true /\
  detectLanguage comment_then_java = lit "python".
Proof.
  split; [reflexivity|]. split; [now vm_compute|].
  apply (first_line_colon_is_python comment_then_java (lit "// note"));
    [now vm_compute | now vm_compute].
Defined.

(** The end-to-end snippet of the specification. *)
Example detect_def_add :
  detectLanguage (lit "def add(a, b):" ++ LF :: lit "    return a + b")
  = lit "python".
Proof. now vm_compute. Qed.

End DetectorClaims.

(* ===================================================================== *)
(** ** The normalizers: helper facts *)
(* ===================================================================== *)

Section NormalizerFacts.

Local Open Scope string_scope.
Local Open Scope list_scope.

Lemma get_non_null (v : value) (name : string) :
  non_null v = true -> get v name = Ok (prop v name).
Proof.
  unfold prop. destruct v; simpl; try discriminate; intros _;
    try reflexivity.
  - now destruct (String.eqb name "length").
  - now destruct (String.eqb name "length").
  - now destruct (obj_get (lit name) props).
Qed.

Lemma get_null (v : value) (name : string) :
  non_null v = false -> get v name = Throw TypeError.
Proof. destruct v; simpl; try discriminate; reflexivity. Qed.

Lemma get_opt_length (v : value) : get_opt v "length" = Ok (length_of v).
Proof.
  unfold length_of. destruct v; simpl; try reflexivity.
  now destruct (obj_get (lit "length") props).
Qed.

Lemma or_else_Ok (x : value) (b : result value) :
  or_else (Ok x) b = if truthy x then Ok x else b.
Proof. reflexivity. Qed.

Lemma or_else_dflt (x d : value) : or_else (Ok x) (Ok d) = Ok (dflt x d).
Proof. unfold or_else, dflt; simpl. now destruct (truthy x). Qed.

Lemma dflt_truthy (x d : value) : truthy x = true -> dflt x d = x.
Proof. unfold dflt. now intros ->. Qed.

Lemma dflt_missing (x d : value) : missing x = true -> dflt x d = d.
Proof.
  unfold dflt. destruct x as [| |[|]| |[|]| |]; simpl; try discriminate;
    reflexivity.
Qed.

(** [JSON.parse] never yields [undefined]. *)
Lemma step_defined (st st' : mode * list frame) (tok : token) :
  step st tok = Some st' -> fst st' <> Done VUndefined.
Proof.
  destruct st as [m stack]. unfold step, start_value.
  destruct m; destruct tok; try discriminate;
    try (destruct stack as [|[]]; try discriminate);
    intros [= <-]; simpl; discriminate.
Qed.

Lemma run_defined (toks : list token) (st : mode * list frame) (v : value) :
  fst st <> Done VUndefined -> run st toks = Some v -> v <> VUndefined.
Proof.
  revert st. induction toks as [|tok toks IH]; intros st Hst; simpl.
  - destruct st as [[] [|]]; try discriminate.
    intros [= <-] ->. now apply Hst.
  - destruct (step st tok) as [st'|] eqn:E; [|discriminate].
    apply IH. now apply step_defined in E.
Qed.

Lemma JSON_parse_defined (text : jsstring) :
  JSON_parse text <> Some VUndefined.
Proof.
  unfold JSON_parse. destruct (lex 0 text) as [toks|]; [|discriminate].
  intros H. apply run_defined in H; [now apply H | discriminate].
Qed.

End NormalizerFacts.

(** Each normalizer in closed form: a [SyntaxError] of [JSON.parse] and the
    [TypeError] of reading a field of [null] both end in the [catch] block;
    otherwise every field is the response's or its default. *)
Section NormalizerShapes.

Local Open Scope string_scope.
Local Open Scope list_scope.

Ltac shape :=
  intros;
  match goal with
  | |- ?f ?resp = _ => unfold f, parse
  end;
  cbv zeta;
  match goal with
  | |- context [JSON_parse ?t] =>
      destruct (JSON_parse t) as [d|]; [|reflexivity]
  end;
  cbn [bind];
  match goal with
  | d : value |- _ =>
      let E := fresh "E" in
      destruct (non_null d) eqn:E;
      [ rewrite ?(get_non_null _ _ E);
        repeat (cbn [bind]; rewrite ?get_opt_length, ?or_else_dflt);
        reflexivity
      | destruct d; try discriminate; reflexivity ]
  end.

Lemma parseExplainerResponse_shape (response : jsstring) :
  parseExplainerResponse response =
  match JSON_parse (clean response) with
  | Some data =>
      if non_null data then
        Ok (ExplainerResult.mk
              (dflt (prop data "summary") (str "Analysis completed."))
              (dflt (prop data "explanations") (VArr [])))
      else Throw parse_failure
  | None => Throw parse_failure
  end.
Proof. shape. Qed.

Lemma parseBugFinderResponse_shape (response : jsstring) :
  parseBugFinderResponse response =
  match JSON_parse (clean response) with
  | Some data =>
      if non_null data then
        Ok (BugFinderResult.mk
              (dflt (prop data "bugs") (VArr []))
              (dflt (prop data "totalCount")
                    (dflt (length_of (prop data "bugs")) (num 0)))
              (dflt (prop data "severitySummary")
                    (zeros ["critical"; "high"; "medium"; "low"])))
      else Throw parse_failure
  | None => Throw parse_failure
  end.
Proof. shape. Qed.

Lemma parseRefactoringResponse_shape (response : jsstring) :
  parseRefactoringResponse response =
  match JSON_parse (clean response) with
  | Some data =>
      if non_null data then
        Ok (RefactorResult.mk
              (dflt (prop data "suggestions") (VArr []))
              (dflt (prop data "overallScore") (num 70)))
      else Throw parse_failure
  | None => Throw parse_failure
  end.
Proof. shape. Qed.

Lemma parseCodeSmellResponse_shape (response : jsstring) :
  parseCodeSmellResponse response =
  match JSON_parse (clean response) with
  | Some data =>
      if non_null data then
        Ok (CodeSmellResult.mk
              (dflt (prop data "smells") (VArr []))
              (dflt (length_of (prop data "smells")) (num 0))
              (dflt (prop data "categorySummary") (zeros smell_keys))
              (dflt (prop data "overallHealthScore") (num 70)))
      else Throw parse_failure
  | None => Throw parse_failure
  end.
Proof. shape. Qed.

Lemma parseComplexityResponse_shape (response : jsstring) :
  parseComplexityResponse response =
  match JSON_parse (clean response) with
  | Some data =>
      if non_null data then
        Ok (ComplexityResult.mk
              (dflt (prop data "functions") (VArr []))
              (dflt (prop data "overallMetrics")
                    (zeros ["averageCyclomaticComplexity";
                            "averageCognitiveComplexity";
                            "maxNestingDepth"; "totalFunctions";
                            "complexFunctions"]))
              (dflt (prop data "maintainabilityIndex") (num 70))
              (dflt (prop data "recommendations") (VArr [])))
      else Throw parse_failure
  | None => Throw parse_failure
  end.
Proof. shape. Qed.

Lemma parseSecurityResponse_shape (response : jsstring) :
  parseSecurityResponse response =
  match JSON_parse (clean response) with
  | Some data =>
      if non_null data then
        Ok (SecurityResult.mk
              (dflt (prop data "vulnerabilities") (VArr []))
              (dflt (length_of (prop data "vulnerabilities")) (num 0))
              (dflt (prop data "severitySummary")
                    (zeros ["critical"; "high"; "medium"; "low"; "info"]))
              (dflt (prop data "categorySummary") (zeros owasp_keys))
              (dflt (prop data "securityScore") (num 70))
              (dflt (prop data "recommendations") (VArr [])))
      else Throw parse_failure
  | None => Throw parse_failure
  end.
Proof. shape. Qed.

End NormalizerShapes.

(* ===================================================================== *)
(** ** The normalizers: theorems *)
(* ===================================================================== *)

Section NormalizerClaims.

Local Open Scope string_scope.
Local Open Scope list_scope.

(** Two scenarios of the specification: a text that is not JSON is a parse
    failure, and a bug finder response with an empty list and a total of 0
    comes out with the four-key severity histogram at 0. *)
Example not_json_is_a_parse_failure :
  parseBugFinderResponse (lit "not json at all") = Throw parse_failure.
Proof. reflexivity. Qed.

Example bug_finder_scenario :
  parseBugFinderResponse (json "{'bugs': [], 'totalCount': 0}")
  = Ok {| BugFinderResult.bugs := VArr [];
          BugFinderResult.totalCount := num 0;
          BugFinderResult.severitySummary :=
            zeros ["critical"; "high"; "medium"; "low"] |}.
Proof. now vm_compute. Qed.

Lemma parsed_non_null (text : jsstring) (data : value) :
  JSON_parse text = Some data -> data <> VNull -> non_null data = true.
Proof.
  intros H Hn. destruct data; try reflexivity.
  - now apply JSON_parse_defined in H.
  - contradiction.
Qed.

Lemma unusable_non_null (text : jsstring) :
  unusable text <->
  match JSON_parse text with
  | Some data => non_null data = false
  | None => True
  end.
Proof.
  unfold unusable. pose proof (JSON_parse_defined text) as Hd.
  destruct (JSON_parse text) as [data|]; [|tauto].
  split.
  - intros [H | [= ->]]; [discriminate | reflexivity].
  - destruct data; try discriminate; intros _; [now elim Hd | now right].
Qed.

(** A normalizer in closed form throws exactly on unusable texts, and
    then throws the error of its [catch] block. *)
Lemma shape_throws {A : Type} (p : result A) (text : jsstring)
      (build : value -> A) :
  p = match JSON_parse text with
      | Some data => if non_null data then Ok (build data)
                     else Throw parse_failure
      | None => Throw parse_failure
      end ->
  (throws p <-> unusable text) /\ (forall e, p = Throw e -> e = parse_failure).
Proof.
  intros ->. rewrite unusable_non_null. unfold throws.
  destruct (JSON_parse text) as [data|].
  - destruct (non_null data); split.
    + split; [intros [e H]; discriminate | discriminate].
    + discriminate.
    + split; [reflexivity | now exists parse_failure].
    + now intros e [= <-].
  - split; [split; [trivial | now exists parse_failure]|].
    now intros e [= <-].
Qed.

Lemma passes_dflt (x d : value) : passes x d (dflt x d).
Proof. split; [apply dflt_truthy | apply dflt_missing]. Qed.

Lemma num_of_nat_zero (n : nat) :
  num_is_zero (num_of_nat n) = (n =? 0)%nat.
Proof.
  unfold num_of_nat, num_of_N, num_is_zero.
  rewrite Z.ltb_irrefl, andb_false_l, orb_false_r.
  destruct n; [reflexivity|].
  apply N.eqb_neq. lia.
Qed.

Lemma counted_dflt (lst : value) :
  counted lst (dflt (length_of lst) (num 0)).
Proof.
  split.
  - intros items ->.
    change (length_of (VArr items))
      with (VNum (num_of_nat (List.length items))).
    unfold dflt. cbn [truthy]. rewrite num_of_nat_zero.
    now destruct items.
  - destruct lst as [| |[|]| |[|]| |]; simpl; try discriminate;
      reflexivity.
Qed.

(** C3.  On the response [{}] every normalizer returns empty finding and
    recommendation lists, every histogram key at 0, a total of 0, and
    the score 70. *)
Theorem normalizers_on_empty_object :
  parseExplainerResponse (lit "{}")
  = Ok {| ExplainerResult.summary := str "Analysis completed.";
          ExplainerResult.explanations := VArr [] |}
  /\ parseBugFinderResponse (lit "{}")
     = Ok {| BugFinderResult.bugs := VArr [];
             BugFinderResult.totalCount := num 0;
             BugFinderResult.severitySummary :=
               VObj [(lit "critical", num 0); (lit "high", num 0);
                     (lit "medium", num 0); (lit "low", num 0)] |}
  /\ parseRefactoringResponse (lit "{}")
     = Ok {| RefactorResult.suggestions := VArr [];
             RefactorResult.overallScore := num 70 |}
  /\ parseCodeSmellResponse (lit "{}")
     = Ok {| CodeSmellResult.smells := VArr [];
             CodeSmellResult.totalCount := num 0;
             CodeSmellResult.categorySummary :=
               VObj [(lit "bloaters", num 0); (lit "oo-abusers", num 0);
                     (lit "change-preventers", num 0);
                     (lit "dispensables", num 0); (lit "couplers", num 0)];
             CodeSmellResult.overallHealthScore := num 70 |}
  /\ parseComplexityResponse (lit "{}")
     = Ok {| ComplexityResult.functions := VArr [];
             ComplexityResult.overallMetrics :=
               VObj [(lit "averageCyclomaticComplexity", num 0);
                     (lit "averageCognitiveComplexity", num 0);
                     (lit "maxNestingDepth", num 0);
                     (lit "totalFunctions", num 0);
                     (lit "complexFunctions", num 0)];
             ComplexityResult.maintainabilityIndex := num 70;
             ComplexityResult.recommendations := VArr [] |}
  /\ parseSecurityResponse (lit "{}")
     = Ok {| SecurityResult.vulnerabilities := VArr [];
             SecurityResult.totalCount := num 0;
             SecurityResult.severitySummary :=
               VObj [(lit "critical", num 0); (lit "high", num 0);
                     (lit "medium", num 0); (lit "low", num 0);
                     (lit "info", num 0)];
             SecurityResult.categorySummary :=
               VObj [(lit "injection", num 0); (lit "broken-auth", num 0);
                     (lit "sensitive-data", num 0); (lit "xxe", num 0);
                     (lit "broken-access", num 0);
                     (lit "security-misconfig", num 0); (lit "xss", num 0);
                     (lit "insecure-deserialization", num 0);
                     (lit "vulnerable-components", num 0);
                     (lit "logging-monitoring", num 0)];
             SecurityResult.securityScore := num 70;
             SecurityResult.recommendations := VArr [] |}.
Proof. repeat split; vm_compute; reflexivity. Qed.






(** The partial histogram of the response is the histogram of the
    result, for the security and for the code smell normalizer. *)
Lemma partial_histogram_forwarded :
  JSON_parse (clean partial_histogram)
  = Some (VObj [(lit "categorySummary", VObj [(lit "xss", num 1)])])
  /\ (exists r, parseSecurityResponse partial_histogram = Ok r
                /\ SecurityResult.categorySummary r = VObj [(lit "xss", num 1)]
                /\ has_number_keys owasp_keys (SecurityResult.categorySummary r)
                   = false)
  /\ (exists r, parseCodeSmellResponse partial_histogram = Ok r
                /\ CodeSmellResult.categorySummary r = VObj [(lit "xss", num 1)]
                /\ has_number_keys smell_keys (CodeSmellResult.categorySummary r)
                   = false).
Proof.
  split; [vm_compute; reflexivity|].
  split; eexists; (split; [vm_compute; reflexivity|]);
    split; vm_compute; reflexivity.
Qed.

(** C1, as the code has it.  For a response that parses to a value other
    than [null]: when its [categorySummary] is absent or falsy, the
    result's histogram is the complete fixed map, every one of the ten
    (five) keys at 0; when it is truthy, it is the result's histogram as
    it stands. *)
Theorem categorySummary_default_or_forwarded
        (response : jsstring) (data : value) :
  JSON_parse (clean response) = Some data ->
  data <> VNull ->
  (exists r, parseSecurityResponse response = Ok r
     /\ (truthy (prop data "categorySummary") = false ->
         SecurityResult.categorySummary r = zeros owasp_keys
         /\ has_number_keys owasp_keys (SecurityResult.categorySummary r)
            = true)
     /\ (truthy (prop data "categorySummary") = true ->
         SecurityResult.categorySummary r = prop data "categorySummary"))
  /\ (exists r, parseCodeSmellResponse response = Ok r
        /\ (truthy (prop data "categorySummary") = false ->
            CodeSmellResult.categorySummary r = zeros smell_keys
            /\ has_number_keys smell_keys (CodeSmellResult.categorySummary r)
               = true)
        /\ (truthy (prop data "categorySummary") = true ->
            CodeSmellResult.categorySummary r = prop data "categorySummary")).
Proof.
  intros Hp Hn. pose proof (parsed_non_null _ _ Hp Hn) as Hnn.
  rewrite parseSecurityResponse_shape, parseCodeSmellResponse_shape, Hp, Hnn.
  split; eexists; (split; [reflexivity|]); cbn [SecurityResult.categorySummary
    CodeSmellResult.categorySummary]; unfold dflt;
    (split; intros ->; [split; reflexivity | reflexivity]).
Qed.

Lemma categorySummary_default_or_forwarded_witness :
  (exists r, parseSecurityResponse (lit "{}") = Ok r
     /\ has_number_keys owasp_keys (SecurityResult.categorySummary r) = true)
  /\ (exists r, parseCodeSmellResponse (lit "{}") = Ok r
        /\ has_number_keys smell_keys (CodeSmellResult.categorySummary r)
           = true).
Proof.
  destruct (categorySummary_default_or_forwarded (lit "{}") (VObj []))
    as [(r1 & H1 & D1 & _) (r2 & H2 & D2 & _)];
    [vm_compute; reflexivity | discriminate |].
  split; [exists r1 | exists r2]; (split; [assumption|]);
    [apply D1 | apply D2]; reflexivity.
Defined.

(** A score of 0 in the response comes out as 70, for each of the four
    scores. *)
Lemma zero_score_replaced :
  JSON_parse (clean zero_score)
  = Some (VObj [(lit "overallScore", num 0); (lit "suggestions", VArr [])])
  /\ parseRefactoringResponse zero_score
     = Ok {| RefactorResult.suggestions := VArr [];
             RefactorResult.overallScore := num 70 |}
  /\ (exists r, parseCodeSmellResponse (json "{'overallHealthScore': 0}") = Ok r
                /\ CodeSmellResult.overallHealthScore r = num 70)
  /\ (exists r, parseComplexityResponse (json "{'maintainabilityIndex': 0}") = Ok r
                /\ ComplexityResult.maintainabilityIndex r = num 70)
  /\ (exists r, parseSecurityResponse (json "{'securityScore': 0}") = Ok r
                /\ SecurityResult.securityScore r = num 70).
Proof.
  split; [vm_compute; reflexivity|].
  split; [vm_compute; reflexivity|].
  repeat split; eexists; (split; [vm_compute; reflexivity|]); reflexivity.
Qed.

(** C4, as the code has it.  For a response that parses to a value other
    than [null], every field a normalizer reads with a default is the
    response's own value when that value is truthy, and the default when
    the field is absent, null, false or the empty string. *)
Theorem fields_pass_through_or_default (response : jsstring) (data : value) :
  JSON_parse (clean response) = Some data ->
  data <> VNull ->
  (exists r, parseExplainerResponse response = Ok r
     /\ passes (prop data "summary") (str "Analysis completed.")
               (ExplainerResult.summary r)
     /\ passes (prop data "explanations") (VArr [])
               (ExplainerResult.explanations r))
  /\ (exists r, parseBugFinderResponse response = Ok r
        /\ passes (prop data "bugs") (VArr []) (BugFinderResult.bugs r)
        /\ passes (prop data "totalCount")
                  (dflt (length_of (prop data "bugs")) (num 0))
                  (BugFinderResult.totalCount r)
        /\ passes (prop data "severitySummary")
                  (zeros ["critical"; "high"; "medium"; "low"])
                  (BugFinderResult.severitySummary r))
  /\ (exists r, parseRefactoringResponse response = Ok r
        /\ passes (prop data "suggestions") (VArr [])
                  (RefactorResult.suggestions r)
        /\ passes (prop data "overallScore") (num 70)
                  (RefactorResult.overallScore r))
  /\ (exists r, parseCodeSmellResponse response = Ok r
        /\ passes (prop data "smells") (VArr []) (CodeSmellResult.smells r)
        /\ passes (prop data "categorySummary") (zeros smell_keys)
                  (CodeSmellResult.categorySummary r)
        /\ passes (prop data "overallHealthScore") (num 70)
                  (CodeSmellResult.overallHealthScore r))
  /\ (exists r, parseComplexityResponse response = Ok r
        /\ passes (prop data "functions") (VArr [])
                  (ComplexityResult.functions r)
        /\ passes (prop data "overallMetrics")
                  (zeros ["averageCyclomaticComplexity";
                          "averageCognitiveComplexity"; "maxNestingDepth";
                          "totalFunctions"; "complexFunctions"])
                  (ComplexityResult.overallMetrics r)
        /\ passes (prop data "maintainabilityIndex") (num 70)
                  (ComplexityResult.maintainabilityIndex r)
        /\ passes (prop data "recommendations") (VArr [])
                  (ComplexityResult.recommendations r))
  /\ (exists r, parseSecurityResponse response = Ok r
        /\ passes (prop data "vulnerabilities") (VArr [])
                  (SecurityResult.vulnerabilities r)
        /\ passes (prop data "severitySummary")
                  (zeros ["critical"; "high"; "medium"; "low"; "info"])
                  (SecurityResult.severitySummary r)
        /\ passes (prop data "categorySummary") (zeros owasp_keys)
                  (SecurityResult.categorySummary r)
        /\ passes (prop data "securityScore") (num 70)
                  (SecurityResult.securityScore r)
        /\ passes (prop data "recommendations") (VArr [])
                  (SecurityResult.recommendations r)).
Proof.
  intros Hp Hn. pose proof (parsed_non_null _ _ Hp Hn) as Hnn.
  rewrite parseExplainerResponse_shape, parseBugFinderResponse_shape,
    parseRefactoringResponse_shape, parseCodeSmellResponse_shape,
    parseComplexityResponse_shape, parseSecurityResponse_shape, Hp, Hnn.
  repeat apply conj; eexists; (split; [reflexivity|]);
    repeat apply conj; apply passes_dflt.
Qed.

Lemma fields_pass_through_or_default_witness :
  exists r, parseRefactoringResponse fenced_score = Ok r
            /\ RefactorResult.overallScore r = num 42
            /\ RefactorResult.suggestions r = VArr [].
Proof.
  destruct (fields_pass_through_or_default fenced_score
              (VObj [(lit "overallScore", num 42);
                     (lit "suggestions", VArr [])]))
    as (_ & _ & (r & Hr & [Hs _] & [Ho _]) & _);
    [vm_compute; reflexivity | discriminate |].
  exists r. split; [exact Hr|].
  split; [rewrite (Ho eq_refl) | rewrite (Hs eq_refl)]; reflexivity.
Defined.




(** C10.  Some API key passes the credential guard of [callAI], being
    neither empty nor blank, and is sanitized to the empty string: a key
    made of non-ASCII characters only. *)
Theorem sanitizeApiKey_loses_non_emptiness :
  exists key : jsstring,
    key <> [] /\ trim key <> []
    /\ apiKey_missing key = false
    /\ callAI_validate key = Ok tt
    /\ forallb (fun c => negb (N.leb c 127)) key = true
    /\ sanitizeApiKey key = [].
Proof.
  exists cyrillic_key. repeat split; try discriminate; reflexivity.
Qed.

End NormalizerClaims.

(* ===================================================================== *)
(** ** Fence stripping *)
(* ===================================================================== *)

Section FenceFacts.

Local Open Scope list_scope.

Lemma startsWith_length (s p : jsstring) :
  startsWith s p = true -> (List.length p <= List.length s)%nat.
Proof.
  revert s. induction p as [|a p IH]; intros s; simpl; [lia|].
  destruct s as [|b s]; [discriminate|].
  intros H. apply andb_true_iff in H as [_ H].
  apply IH in H. simpl. lia.
Qed.

Lemma startsWith_app (s p p' : jsstring) :
  startsWith s (p ++ p') = true -> startsWith s p = true.
Proof.
  revert s. induction p as [|a p IH]; intros s; simpl; [reflexivity|].
  destruct s as [|b s]; [discriminate|].
  intros H. apply andb_true_iff in H as [Hab H].
  rewrite Hab. now apply IH.
Qed.

(** A literal matches where the subject starts with it, and nowhere
    else. *)
Lemma matches_chars (l : jsstring) (b : option char) (s : jsstring) :
  l <> [] ->
  matches (chars l) (Pos b s)
  = if startsWith s l
    then [Pos (Some (last l 0%N)) (skipn (List.length l) s)]
    else [].
Proof.
  revert b s. induction l as [|c l IH]; intros b s Hl; [contradiction|].
  destruct l as [|c' l'].
  - destruct s as [|x t]; simpl; [reflexivity|].
    rewrite N.eqb_sym, andb_true_r.
    destruct (N.eqb_spec c x) as [->|]; reflexivity.
  - change (chars (c :: c' :: l')) with (Seq (Chr c) (chars (c' :: l'))).
    destruct s as [|x t]; [reflexivity|].
    cbn [matches rest]. cbn [startsWith].
    rewrite (N.eqb_sym x c).
    destruct (N.eqb c x); [|reflexivity].
    cbn [flat_map andb]. rewrite app_nil_r, IH by discriminate.
    reflexivity.
Qed.

Lemma matches_fence_none (l : jsstring) (b : option char) (s : jsstring) :
  l <> [] -> startsWith s l = false -> matches (fence_of l) (Pos b s) = [].
Proof.
  intros Hl H. unfold fence_of. cbn [matches].
  rewrite matches_chars, H by assumption. reflexivity.
Qed.

Lemma matches_fence_some (l : jsstring) (b : option char) (s : jsstring) :
  l <> [] -> startsWith s l = true ->
  exists e es, matches (fence_of l) (Pos b s) = e :: es
               /\ (List.length (rest e) < List.length s)%nat.
Proof.
  intros Hl H. unfold fence_of. cbn [matches].
  rewrite matches_chars, H by assumption.
  cbn [flat_map]. rewrite app_nil_r.
  pose proof (startsWith_length _ _ H) as Hlen.
  assert (Hpos : (0 < List.length l)%nat) by (destruct l; [contradiction|simpl; lia]).
  pose proof (length_skipn (List.length l) s) as Hs.
  unfold Opt. cbn [matches rest].
  destruct (skipn (List.length l) s) as [|x t] eqn:E.
  - eexists _, _. split; [reflexivity|]. simpl in *. lia.
  - destruct (N.eqb x LF); eexists _, _; (split; [reflexivity|]);
      simpl in *; lia.
Qed.

(** One step of the global replacement by a fence pattern. *)
Lemma remove_fence_keep (l : jsstring) (b : option char) (c : char)
      (t : jsstring) :
  l <> [] -> startsWith (c :: t) l = false ->
  remove_from (fence_of l) 0 b (c :: t)
  = c :: remove_from (fence_of l) 0 (Some c) t.
Proof.
  intros Hl H. cbn [remove_from].
  now rewrite matches_fence_none.
Qed.

Lemma remove_fence_drop (l : jsstring) (b : option char) (c : char)
      (t : jsstring) :
  l <> [] -> startsWith (c :: t) l = true ->
  exists k, remove_from (fence_of l) 0 b (c :: t)
            = remove_from (fence_of l) k (Some c) t.
Proof.
  intros Hl H. cbn [remove_from].
  destruct (matches_fence_some l b (c :: t) Hl H) as (e & es & -> & Hlt).
  destruct (List.length (c :: t) - List.length (rest e))%nat as [|k] eqn:E;
    [lia|].
  now exists k.
Qed.

Lemma includes_cons (c : char) (t p : jsstring) :
  includes (c :: t) p = startsWith (c :: t) p || includes t p.
Proof. reflexivity. Qed.

(** A text without the literal's first three characters in a row is left
    as it is. *)
Lemma remove_fence_free (l : jsstring) (b : option char) (s : jsstring) :
  l <> [] ->
  (forall u, startsWith u l = true -> startsWith u fence_marker = true) ->
  includes s fence_marker = false ->
  remove_from (fence_of l) 0 b s = s.
Proof.
  intros Hl Hsub. revert b. induction s as [|c t IH]; intros b H.
  - reflexivity.
  - rewrite includes_cons in H. apply orb_false_iff in H as [H1 H2].
    rewrite remove_fence_keep, IH; trivial.
    destruct (startsWith (c :: t) l) eqn:E; [|reflexivity].
    apply Hsub in E. congruence.
Qed.

Lemma startsWith_marker_lead (s : jsstring) :
  startsWith s fence_marker = (3 <=? lead s)%nat.
Proof.
  change fence_marker with [BACKTICK; BACKTICK; BACKTICK].
  destruct s as [|a [|b [|c s]]]; cbn [startsWith lead];
    repeat match goal with
           | |- context [N.eqb BACKTICK ?x] =>
               destruct (N.eqb BACKTICK x); cbn [andb lead]
           end; reflexivity.
Qed.

(** What is left after removing the fences holds no fence. *)
Lemma remove_fence_clears (s : jsstring) (k : nat) (b : option char) :
  let o := remove_from (fence_of fence_marker) k b s in
  includes o fence_marker = false
  /\ (lead o <= 2)%nat
  /\ (k = O -> lead o <= lead s)%nat.
Proof.
  assert (Hm : fence_marker <> []) by discriminate.
  revert k b. induction s as [|c t IH]; intros k b; cbv zeta.
  - destruct k; simpl; repeat split; lia.
  - destruct k as [|k].
    + destruct (startsWith (c :: t) fence_marker) eqn:E.
      * destruct (remove_fence_drop fence_marker b c t Hm E) as [k ->].
        destruct (IH k (Some c)) as (I1 & I2 & _).
        repeat split; trivial. intros _.
        rewrite startsWith_marker_lead in E.
        apply Nat.leb_le in E. lia.
      * rewrite (remove_fence_keep fence_marker b c t Hm E).
        destruct (IH O (Some c)) as (I1 & I2 & I3).
        specialize (I3 eq_refl).
        rewrite startsWith_marker_lead in E. apply Nat.leb_gt in E.
        assert (L : (lead (c :: remove_from (fence_of fence_marker) 0
                                             (Some c) t)
                     <= lead (c :: t))%nat).
        { cbn [lead]. destruct (N.eqb BACKTICK c); lia. }
        repeat split; try lia.
        rewrite includes_cons, I1, orb_false_r, startsWith_marker_lead.
        apply Nat.leb_gt. lia.
    + cbn [remove_from]. destruct (IH k (Some c)) as (I1 & I2 & _).
      repeat split; trivial. intros [=].
Qed.

Lemma includes_app_l (a w p : jsstring) :
  includes a p = true -> includes (a ++ w) p = true.
Proof.
  assert (S : forall a, startsWith a p = true -> startsWith (a ++ w) p = true).
  { clear a. induction p as [|x p IHp]; intros a; simpl; [reflexivity|].
    destruct a as [|y a]; [discriminate|]. simpl.
    intros H. apply andb_true_iff in H as [-> H]. now apply IHp. }
  induction a as [|c a IH].
  - destruct p as [|x p]; [|discriminate].
    intros _. destruct w; reflexivity.
  - rewrite includes_cons. intros H. simpl app. rewrite includes_cons.
    apply orb_true_iff in H as [H | H].
    + change (c :: a ++ w) with ((c :: a) ++ w). now rewrite S.
    + rewrite IH by assumption. apply orb_true_r.
Qed.

Lemma includes_app_r (w a p : jsstring) :
  includes a p = true -> includes (w ++ a) p = true.
Proof.
  intros H. induction w as [|c w IH]; [assumption|].
  simpl app. rewrite includes_cons, IH. apply orb_true_r.
Qed.

Lemma trim_includes (s p : jsstring) :
  includes s p = false -> includes (trim s) p = false.
Proof.
  intros H. unfold trim.
  destruct (includes (trimEnd (trimStart s)) p) eqn:E; [|reflexivity].
  destruct (trimEnd_prefix (trimStart s)) as [w Hw].
  destruct (trimStart_suffix s) as [w' Hw'].
  apply (includes_app_l _ w) in E. rewrite <- Hw in E.
  apply (includes_app_r w') in E. rewrite <- Hw' in E. congruence.
Qed.

Lemma re_fence_of : re_fence = fence_of fence_marker.
Proof. reflexivity. Qed.

Lemma re_fence_json_of : re_fence_json = fence_of (lit "```json").
Proof. reflexivity. Qed.

Lemma clean_fence_free (s : jsstring) :
  includes s fence_marker = false -> clean s = trim s.
Proof.
  intros H. unfold clean, remove_all.
  rewrite re_fence_json_of, re_fence_of.
  rewrite (remove_fence_free (lit "```json")); trivial; try discriminate.
  - rewrite remove_fence_free; trivial; discriminate.
  - intros u. apply (startsWith_app u fence_marker (lit "json")).
Qed.

Lemma clean_clears (s : jsstring) : includes (clean s) fence_marker = false.
Proof.
  unfold clean, remove_all. apply trim_includes.
  rewrite re_fence_of. apply remove_fence_clears.
Qed.

Lemma trim_clean (s : jsstring) : trim (clean s) = clean s.
Proof. unfold clean. apply trim_idem. Qed.

End FenceFacts.

Section FenceClaims.

(** A fence-free text with white space around it does not come back
    unchanged. *)
Lemma padded_text_is_trimmed :
  includes padded_object fence_marker = false
  /\ clean padded_object = lit "{}"
  /\ clean padded_object <> padded_object.
Proof. repeat split; try reflexivity. discriminate. Qed.

(** C8, as the code has it.  On a text that holds no fence marker the
    cleaning step is [trim], so the text comes back unchanged when it has
    no white space around it; and on every text, cleaning twice gives
    what cleaning once gives. *)
Theorem clean_trims_and_is_idempotent (s : jsstring) :
  (includes s fence_marker = false ->
   clean s = trim s /\ (trim s = s -> clean s = s))
  /\ clean (clean s) = clean s.
Proof.
  split.
  - intros H. rewrite (clean_fence_free s H). split; [reflexivity|trivial].
  - rewrite (clean_fence_free (clean s) (clean_clears s)).
    apply trim_clean.
Qed.

Lemma clean_trims_and_is_idempotent_witness :
  clean (lit "{}") = lit "{}"
  /\ clean (clean fenced_score) = clean fenced_score.
Proof.
  split.
  - destruct (clean_trims_and_is_idempotent (lit "{}")) as [H _].
    destruct (H eq_refl) as [_ H']. apply H'. reflexivity.
  - apply (clean_trims_and_is_idempotent fenced_score).
Defined.

End FenceClaims.

(* ===================================================================== *)
(** ** Further properties *)
(* ===================================================================== *)

Import App.

(* ===================================================================== *)
(** ** The API key *)
(* ===================================================================== *)

Section ApiKeyFacts.

(** Removing every match of a character class keeps the other
    characters, in order. *)
Lemma remove_class (f : char -> bool) (b : option char) (s : jsstring) :
  remove_from (Cls f) 0 b s = filter (fun c => negb (f c)) s.
Proof.
  revert b. induction s as [|c t IH]; intros b; [reflexivity|].
  cbn [remove_from matches rest filter].
  destruct (f c); cbn [negb].
  - simpl rest.
    assert (E : (List.length (c :: t) - List.length t = 1)%nat)
      by (change (List.length (c :: t)) with (S (List.length t)); lia).
    rewrite E. apply IH.
  - now rewrite IH.
Qed.

Lemma forallb_trim (f : char -> bool) (s : jsstring) :
  forallb f s = true -> forallb f (trim s) = true.
Proof.
  intros H. unfold trim.
  destruct (trimStart_suffix s) as [w Hw].
  destruct (trimEnd_prefix (trimStart s)) as [w' Hw'].
  rewrite Hw, forallb_app in H. apply andb_true_iff in H as [_ H].
  rewrite Hw', forallb_app in H. now apply andb_true_iff in H as [H _].
Qed.

Lemma filter_all (f : char -> bool) (s : jsstring) :
  forallb f s = true -> filter f s = s.
Proof.
  induction s as [|c t IH]; simpl; [reflexivity|].
  intros H. apply andb_true_iff in H as [-> H]. now rewrite IH.
Qed.

Lemma filter_none (f : char -> bool) (s : jsstring) :
  filter f s = [] <-> forallb (fun c => negb (f c)) s = true.
Proof.
  induction s as [|c t IH]; simpl; [tauto|].
  destruct (f c); simpl; [split; discriminate | exact IH].
Qed.

Lemma sanitizeApiKey_filter (apiKey : jsstring) :
  sanitizeApiKey apiKey = filter is_ascii (trim apiKey).
Proof.
  unfold sanitizeApiKey, remove_all, re_non_ascii. rewrite remove_class.
  apply filter_ext. intros c. unfold is_ascii. apply negb_involutive.
Qed.

(** X1.  The sanitized key is the trimmed key without its non-ASCII
    characters, the others in their order: it is ASCII throughout, and a
    key that is ASCII already is only trimmed. *)
Theorem sanitizeApiKey_keeps_ascii (apiKey : jsstring) :
  sanitizeApiKey apiKey = filter is_ascii (trim apiKey)
  /\ forallb is_ascii (sanitizeApiKey apiKey) = true
  /\ (forallb is_ascii apiKey = true -> sanitizeApiKey apiKey = trim apiKey).
Proof.
  rewrite sanitizeApiKey_filter. split; [reflexivity|]. split.
  - apply forallb_forall. intros c Hc. now apply filter_In in Hc.
  - intros H. apply filter_all. now apply forallb_trim.
Qed.

Lemma sanitizeApiKey_keeps_ascii_witness :
  sanitizeApiKey (lit "  sk-abc123 ") = lit "sk-abc123".
Proof.
  destruct (sanitizeApiKey_keeps_ascii (lit "  sk-abc123 ")) as (_ & _ & H).
  rewrite H; reflexivity.
Defined.

(** X2.  The sanitized key is empty exactly when the trimmed key has no
    ASCII character; so a key that passes the guard of [callAI] is sent
    as the empty string exactly when it is made of non-ASCII characters
    only (white space apart, at its ends). *)
Theorem sanitizeApiKey_empty_iff (apiKey : jsstring) :
  (sanitizeApiKey apiKey = []
   <-> forallb (fun c => negb (is_ascii c)) (trim apiKey) = true)
  /\ ((apiKey_missing apiKey = false /\ sanitizeApiKey apiKey = [])
      <-> (trim apiKey <> []
           /\ forallb (fun c => negb (is_ascii c)) (trim apiKey) = true)).
Proof.
  pose proof (sanitizeApiKey_filter apiKey) as E.
  assert (A : sanitizeApiKey apiKey = []
              <-> forallb (fun c => negb (is_ascii c)) (trim apiKey) = true).
  { rewrite E. apply filter_none. }
  split; [exact A|].
  assert (G : apiKey_missing apiKey = false <-> trim apiKey <> []).
  { unfold apiKey_missing. destruct apiKey as [|c t]; [simpl; split; [discriminate | now intros H]|].
    cbn [is_empty orb]. destruct (trim (c :: t)); simpl; split;
      try discriminate; try reflexivity; now intros H. }
  rewrite G, A. tauto.
Qed.

End ApiKeyFacts.
(* ===================================================================== *)
(** ** The gateway *)
(* ===================================================================== *)

Section GatewayFacts.

Variables callOpenAI callAnthropic callGoogle
  : jsstring -> AIConfig -> outcome jsstring.

Lemma callAI_catch_clean (error : thrown) :
  exists n m, callAI_catch error = ErrorObject n m
              /\ includes m (lit "ISO-8859-1") = false.
Proof.
  destruct error as [n m|]; cbn [callAI_catch].
  - destruct (includes m (lit "ISO-8859-1")) eqn:E.
    + eexists _, _. split; [reflexivity|]. now vm_compute.
    + now exists n, m.
  - eexists _, _. split; [reflexivity|]. now vm_compute.
Qed.

Lemma callAI_thrown (prompt : jsstring) (config : AIConfig) (t : thrown) :
  callAI callOpenAI callAnthropic callGoogle prompt config = Thrown t ->
  exists n m, t = ErrorObject n m /\ includes m (lit "ISO-8859-1") = false.
Proof.
  unfold callAI.
  destruct (apiKey_missing (apiKey config)).
  - intros [= <-]. eexists _, _. split; [reflexivity|]. now vm_compute.
  - cbv zeta.
    destruct (match provider config with
              | openai => callOpenAI prompt config
              | anthropic => callAnthropic prompt config
              | google => callGoogle prompt config
              end) as [text|error]; [discriminate|].
    intros [= <-]. apply callAI_catch_clean.
Qed.

(** X3.  [callAI] throws the key-required error on an empty or blank key,
    whatever the provider calls would do; what it throws is always an
    [Error] object, and never one whose message mentions ISO-8859-1: such
    a failure of a provider call comes out as the invalid-characters
    error, any other [Error] of a provider call as it is. *)
Theorem callAI_errors (prompt : jsstring) (config : AIConfig) :
  (apiKey_missing (apiKey config) = true ->
   callAI callOpenAI callAnthropic callGoogle prompt config
   = Thrown key_required)
  /\ (forall t,
         callAI callOpenAI callAnthropic callGoogle prompt config = Thrown t ->
         exists n m, t = ErrorObject n m
                     /\ includes m (lit "ISO-8859-1") = false)
  /\ (forall n m,
         apiKey_missing (apiKey config) = false ->
         match provider config with
         | openai => callOpenAI prompt config
         | anthropic => callAnthropic prompt config
         | google => callGoogle prompt config
         end = Thrown (ErrorObject n m) ->
         callAI callOpenAI callAnthropic callGoogle prompt config
         = Thrown (if includes m (lit "ISO-8859-1") then invalid_characters
                   else ErrorObject n m)).
Proof.
  unfold callAI. repeat split.
  - now intros ->.
  - fold (callAI callOpenAI callAnthropic callGoogle prompt config).
    intros t. apply callAI_thrown.
  - intros n m -> ->. cbn [callAI_catch].
    now destruct (includes m (lit "ISO-8859-1")).
Qed.

(** X4.  An analysis fails with the key-required error on an empty or
    blank key; whatever it throws is an [Error] object whose message does
    not mention ISO-8859-1; and when the provider call returns a text,
    the analysis returns what the normalizer makes of it, or throws the
    normalizer's parse failure.  This holds for every normalizer that
    throws nothing but the parse failure, as the six do. *)
Theorem analysis_outcomes {A : Type}
        (build_prompt : jsstring -> jsstring -> jsstring)
        (normalize : jsstring -> result A)
        (code language : jsstring) (aiConfig : AIConfig) :
  (forall response e, normalize response = Throw e -> e = parse_failure) ->
  (apiKey_missing (apiKey aiConfig) = true ->
   analyze callOpenAI callAnthropic callGoogle build_prompt normalize
           code language aiConfig = Thrown key_required)
  /\ (forall t,
         analyze callOpenAI callAnthropic callGoogle build_prompt normalize
                 code language aiConfig = Thrown t ->
         exists n m, t = ErrorObject n m
                     /\ includes m (lit "ISO-8859-1") = false)
  /\ (forall response,
         callAI callOpenAI callAnthropic callGoogle
                (build_prompt code language) aiConfig = Returned response ->
         analyze callOpenAI callAnthropic callGoogle build_prompt normalize
                 code language aiConfig
         = match normalize response with
           | Ok r => Returned r
           | Throw _ => Thrown (of_exn parse_failure)
           end).
Proof.
  intros Hn. unfold analyze. split; [|split].
  - intros K. unfold callAI. now rewrite K.
  - intros t.
    destruct (callAI callOpenAI callAnthropic callGoogle
                     (build_prompt code language) aiConfig)
      as [response|t'] eqn:E.
    + destruct (normalize response) as [r|e] eqn:N; [discriminate|].
      intros [= <-]. rewrite (Hn _ _ N).
      eexists _, _. split; [reflexivity|]. now vm_compute.
    + intros [= <-]. now apply callAI_thrown in E.
  - intros response ->.
    destruct (normalize response) as [r|e] eqn:N; [reflexivity|].
    now rewrite (Hn _ _ N).
Qed.

End GatewayFacts.

Lemma callAI_errors_witness :
  callAI header_failure header_failure header_failure []
         {| provider := openai; model := lit "gpt-4o-mini"; apiKey := lit "   " |}
  = Thrown key_required
  /\ callAI header_failure header_failure header_failure []
            {| provider := google; model := lit "gemini-1.5-pro";
               apiKey := lit "k" |}
     = Thrown invalid_characters.
Proof.
  split.
  - apply (callAI_errors header_failure header_failure header_failure).
    reflexivity.
  - destruct (callAI_errors header_failure header_failure header_failure []
                {| provider := google; model := lit "gemini-1.5-pro";
                   apiKey := lit "k" |}) as (_ & _ & H).
    rewrite (H _ _ eq_refl eq_refl). reflexivity.
Defined.

Lemma analysis_outcomes_witness :
  analyze header_failure header_failure (fun _ _ => Returned (lit "oops"))
          (fun code language => language ++ code) parseRefactoringResponse
          (lit "x = 1") (lit "python")
          {| provider := google; model := lit "gemini-1.5-pro";
             apiKey := lit "k" |}
  = Thrown (of_exn parse_failure).
Proof.
  destruct (analysis_outcomes header_failure header_failure
              (fun _ _ => Returned (lit "oops"))
              (fun code language => language ++ code)
              parseRefactoringResponse (lit "x = 1") (lit "python")
              {| provider := google; model := lit "gemini-1.5-pro";
                 apiKey := lit "k" |}) as (_ & _ & H).
  - intros response.
    apply (shape_throws _ _ _ (parseRefactoringResponse_shape response)).
  - rewrite (H (lit "oops") eq_refl). reflexivity.
Defined.
(* ===================================================================== *)
(** ** More on the cleaning step and the normalizers *)
(* ===================================================================== *)

Section CleaningFacts.

Local Open Scope list_scope.

(** A fence pattern does not look behind. *)
Lemma matches_fence_before (l : jsstring) (b b' : option char) (s : jsstring) :
  l <> [] -> matches (fence_of l) (Pos b s) = matches (fence_of l) (Pos b' s).
Proof.
  intros Hl. unfold fence_of. cbn [matches].
  now rewrite !matches_chars by assumption.
Qed.

Lemma remove_fence_before (l : jsstring) (k : nat) (b b' : option char)
      (s : jsstring) :
  l <> [] -> remove_from (fence_of l) k b s = remove_from (fence_of l) k b' s.
Proof.
  intros Hl. destruct s as [|c t]; [reflexivity|].
  destruct k; cbn [remove_from]; [|reflexivity].
  now rewrite (matches_fence_before l b b').
Qed.

Lemma remove_from_skip (r : regex) (p s : jsstring) (b : option char) :
  p <> [] ->
  remove_from r (List.length p) b (p ++ s) = remove_from r 0 (Some (last p 0%N)) s.
Proof.
  revert b. induction p as [|c p IH]; intros b Hp; [contradiction|].
  cbn [List.length app remove_from].
  destruct p as [|c' p']; [reflexivity|].
  rewrite IH by discriminate. reflexivity.
Qed.

Lemma startsWith_self (l s : jsstring) : startsWith (l ++ s) l = true.
Proof.
  induction l as [|c l IH]; simpl; [reflexivity|].
  now rewrite N.eqb_refl, IH.
Qed.

(** A fence followed by a line feed goes with its line feed. *)
Lemma remove_fence_here_LF (l : jsstring) (b : option char) (s : jsstring) :
  l <> [] ->
  remove_from (fence_of l) 0 b (l ++ LF :: s)
  = remove_from (fence_of l) 0 (Some LF) s.
Proof.
  intros Hl. destruct l as [|c l']; [contradiction|].
  cbn [app remove_from].
  assert (M : exists es, matches (fence_of (c :: l')) (Pos b (c :: l' ++ LF :: s))
                         = Pos (Some LF) s :: es).
  { unfold fence_of. cbn [matches].
    rewrite matches_chars by discriminate.
    change (c :: l' ++ LF :: s) with ((c :: l') ++ LF :: s).
    rewrite startsWith_self, skipn_app, Nat.sub_diag, skipn_all.
    cbn [skipn app flat_map Opt matches rest]. unfold LF.
    rewrite N.eqb_refl. eexists. reflexivity. }
  destruct M as [es ->]. cbn [rest].
  assert (E : (List.length (c :: l' ++ LF :: s) - List.length s
               = S (List.length (l' ++ [LF])))%nat).
  { cbn [List.length]. rewrite !length_app. cbn [List.length]. lia. }
  rewrite E.
  replace (l' ++ LF :: s) with ((l' ++ [LF]) ++ s)
    by (now rewrite <- app_assoc).
  rewrite remove_from_skip by (destruct l'; discriminate).
  apply remove_fence_before. discriminate.
Qed.

(** A fence at the very end goes. *)
Lemma remove_fence_at_end (b : option char) :
  remove_from (fence_of fence_marker) 0 b fence_marker = [].
Proof. reflexivity. Qed.

Lemma startsWith_marker_before_LF (a r : jsstring) :
  startsWith (a ++ LF :: r) fence_marker = startsWith a fence_marker.
Proof.
  change fence_marker with [BACKTICK; BACKTICK; BACKTICK].
  destruct a as [|x [|y [|z a]]]; cbn [app startsWith];
    rewrite ?andb_false_r; reflexivity.
Qed.

(** A body without a fence marker, closed by a line feed, is left as it
    is by a pattern that starts with the marker. *)
Lemma remove_fence_over_body (l : jsstring) (b : option char)
      (body r : jsstring) :
  l <> [] ->
  (forall u, startsWith u l = true -> startsWith u fence_marker = true) ->
  includes body fence_marker = false ->
  remove_from (fence_of l) 0 b (body ++ LF :: r)
  = body ++ LF :: remove_from (fence_of l) 0 (Some LF) r.
Proof.
  intros Hl Hsub. revert b.
  assert (K : forall a, startsWith a fence_marker = false ->
                        startsWith (a ++ LF :: r) l = false).
  { intros a Ha. destruct (startsWith (a ++ LF :: r) l) eqn:E; [|reflexivity].
    apply Hsub in E. rewrite startsWith_marker_before_LF in E. congruence. }
  induction body as [|c body IH]; intros b H.
  - cbn [app]. rewrite remove_fence_keep; trivial. now apply (K []).
  - rewrite includes_cons in H. apply orb_false_iff in H as [H1 H2].
    cbn [app]. rewrite remove_fence_keep; trivial.
    + now rewrite IH.
    + now apply (K (c :: body)).
Qed.

Lemma json_fence_starts_with_marker (u : jsstring) :
  startsWith u (lit "```json") = true -> startsWith u fence_marker = true.
Proof. apply (startsWith_app u fence_marker (lit "json")). Qed.

Lemma trimStart_app_spaces (w s : jsstring) :
  forallb is_space w = true -> trimStart (w ++ s) = trimStart s.
Proof.
  induction w as [|c w IH]; simpl; [reflexivity|].
  intros H. apply andb_true_iff in H as [-> H]. now apply IH.
Qed.

Lemma trimEnd_app_spaces (s w : jsstring) :
  forallb is_space w = true -> trimEnd (s ++ w) = trimEnd s.
Proof.
  intros Hw.
  assert (E : trimEnd w = []).
  { induction w as [|c w IH]; [reflexivity|]. simpl in *.
    apply andb_true_iff in Hw as [Hc Hw]. now rewrite IH, Hc. }
  induction s as [|c s IH]; [exact E|].
  simpl. now rewrite IH.
Qed.

Lemma trimStart_app_nonblank (s w : jsstring) :
  trimStart s <> [] -> trimStart (s ++ w) = trimStart s ++ w.
Proof.
  induction s as [|c s IH]; simpl; [contradiction|].
  destruct (is_space c); [exact IH | reflexivity].
Qed.

Lemma trimStart_all_spaces (s : jsstring) :
  trimStart s = [] -> forallb is_space s = true.
Proof.
  induction s as [|c s IH]; simpl; [reflexivity|].
  destruct (is_space c); [exact IH | discriminate].
Qed.

(** White space around a text does not change what [trim] gives. *)
Lemma trim_app_spaces (w1 s w2 : jsstring) :
  forallb is_space w1 = true -> forallb is_space w2 = true ->
  trim (w1 ++ s ++ w2) = trim s.
Proof.
  intros H1 H2. unfold trim. rewrite trimStart_app_spaces by assumption.
  destruct (trimStart s) as [|c t] eqn:E.
  - apply trimStart_all_spaces in E.
    rewrite <- (app_nil_r (s ++ w2)).
    rewrite trimStart_app_spaces; [reflexivity|].
    rewrite forallb_app. now rewrite E, H2.
  - rewrite trimStart_app_nonblank by (rewrite E; discriminate).
    rewrite E. now apply trimEnd_app_spaces.
Qed.

Lemma clean_fenced_json (body : jsstring) :
  includes body fence_marker = false ->
  clean (fenced (lit "json") body) = trim body.
Proof.
  intros H. unfold clean, remove_all, fenced.
  rewrite re_fence_json_of, re_fence_of.
  change (fence_marker ++ lit "json" ++ LF :: body ++ LF :: fence_marker)
    with (lit "```json" ++ LF :: body ++ LF :: fence_marker).
  rewrite remove_fence_here_LF by discriminate.
  rewrite (remove_fence_over_body (lit "```json")); trivial;
    [|discriminate | apply json_fence_starts_with_marker].
  change (remove_from (fence_of (lit "```json")) 0 (Some LF) fence_marker)
    with fence_marker.
  rewrite (remove_fence_over_body fence_marker); trivial; [|discriminate].
  rewrite remove_fence_at_end.
  apply (trim_app_spaces [] body [LF]); reflexivity.
Qed.

Lemma clean_fenced_plain (body : jsstring) :
  includes body fence_marker = false ->
  clean (fenced [] body) = trim body.
Proof.
  intros H. unfold clean, remove_all, fenced.
  rewrite re_fence_json_of, re_fence_of.
  change (fence_marker ++ [] ++ LF :: body ++ LF :: fence_marker)
    with (BACKTICK :: BACKTICK :: BACKTICK :: LF
            :: body ++ LF :: fence_marker).
  rewrite !(remove_fence_keep (lit "```json")) by (discriminate || reflexivity).
  rewrite (remove_fence_over_body (lit "```json")); trivial;
    [|discriminate | apply json_fence_starts_with_marker].
  change (remove_from (fence_of (lit "```json")) 0 (Some LF) fence_marker)
    with fence_marker.
  change (BACKTICK :: BACKTICK :: BACKTICK :: LF
            :: body ++ LF :: fence_marker)
    with (fence_marker ++ LF :: body ++ LF :: fence_marker).
  rewrite remove_fence_here_LF by discriminate.
  rewrite (remove_fence_over_body fence_marker); trivial; [|discriminate].
  rewrite remove_fence_at_end.
  apply (trim_app_spaces [] body [LF]); reflexivity.
Qed.

End CleaningFacts.

Section NormalizerExtras.

Local Open Scope string_scope.
Local Open Scope list_scope.

(** The normalizers read the response through [clean] only. *)
Lemma normalizers_by_clean (a b : jsstring) :
  clean a = clean b ->
  parseExplainerResponse a = parseExplainerResponse b
  /\ parseBugFinderResponse a = parseBugFinderResponse b
  /\ parseRefactoringResponse a = parseRefactoringResponse b
  /\ parseCodeSmellResponse a = parseCodeSmellResponse b
  /\ parseComplexityResponse a = parseComplexityResponse b
  /\ parseSecurityResponse a = parseSecurityResponse b.
Proof.
  intros E.
  rewrite !parseExplainerResponse_shape, !parseBugFinderResponse_shape,
    !parseRefactoringResponse_shape, !parseCodeSmellResponse_shape,
    !parseComplexityResponse_shape, !parseSecurityResponse_shape, E.
  repeat split.
Qed.

Lemma normalizers_fail (response : jsstring) :
  JSON_parse (clean response) = None ->
  parseExplainerResponse response = Throw parse_failure
  /\ parseBugFinderResponse response = Throw parse_failure
  /\ parseRefactoringResponse response = Throw parse_failure
  /\ parseCodeSmellResponse response = Throw parse_failure
  /\ parseComplexityResponse response = Throw parse_failure
  /\ parseSecurityResponse response = Throw parse_failure.
Proof.
  intros E.
  rewrite parseExplainerResponse_shape, parseBugFinderResponse_shape,
    parseRefactoringResponse_shape, parseCodeSmellResponse_shape,
    parseComplexityResponse_shape, parseSecurityResponse_shape, E.
  repeat split.
Qed.

(** No JSON text begins with a character that begins no token. *)
Lemma JSON_parse_bad_start (x : char) (t : jsstring) :
  is_space x = false -> begins_token x = false -> JSON_parse (x :: t) = None.
Proof.
  intros Hs Hb. unfold JSON_parse. cbn [lex].
  assert (W : is_json_ws x = false).
  { unfold is_json_ws. unfold is_space in Hs.
    repeat (apply orb_false_iff in Hs as [Hs ?]).
    apply andb_false_iff in Hs.
    repeat (apply orb_false_iff; split);
      apply N.eqb_neq; intros ->; destruct Hs; discriminate. }
  rewrite W. unfold begins_token in Hb.
  repeat (apply orb_false_iff in Hb as [Hb ?]).
  unfold token_at.
  repeat match goal with
         | E : ?c = false |- context [?c] => rewrite E
         end.
  reflexivity.
Qed.

Lemma no_backtick_keep (l : jsstring) (b : option char) (c : char)
      (t : jsstring) :
  l <> [] ->
  (forall u, startsWith u l = true -> startsWith u fence_marker = true) ->
  N.eqb BACKTICK c = false ->
  remove_from (fence_of l) 0 b (c :: t)
  = c :: remove_from (fence_of l) 0 (Some c) t.
Proof.
  intros Hl Hsub Hc. apply remove_fence_keep; trivial.
  destruct (startsWith (c :: t) l) eqn:E; [|reflexivity].
  apply Hsub in E. change fence_marker with [BACKTICK; BACKTICK; BACKTICK] in E.
  cbn [startsWith] in E. now rewrite Hc in E.
Qed.

Lemma spaces_keep (l : jsstring) (b : option char) (w s : jsstring) :
  l <> [] ->
  (forall u, startsWith u l = true -> startsWith u fence_marker = true) ->
  forallb is_space w = true ->
  exists b', remove_from (fence_of l) 0 b (w ++ s)
             = w ++ remove_from (fence_of l) 0 b' s.
Proof.
  intros Hl Hsub. revert b. induction w as [|c w IH]; intros b H.
  - now exists b.
  - simpl in H. apply andb_true_iff in H as [Hc H].
    cbn [app]. rewrite no_backtick_keep; trivial.
    + destruct (IH (Some c) H) as [b' ->]. now exists b'.
    + destruct (N.eqb_spec BACKTICK c) as [<-|]; [discriminate|reflexivity].
Qed.

Lemma trim_head (w : jsstring) (x : char) (t : jsstring) :
  forallb is_space w = true -> is_space x = false ->
  exists t', trim (w ++ x :: t) = x :: t'.
Proof.
  intros Hw Hx. unfold trim. rewrite trimStart_app_spaces by assumption.
  cbn [trimStart]. rewrite Hx. now apply trimEnd_head.
Qed.

(** The cleaned text begins with the first character after the leading
    white space, when that is neither white space nor a backtick. *)
Lemma clean_head (w : jsstring) (x : char) (t : jsstring) :
  forallb is_space w = true -> is_space x = false ->
  N.eqb BACKTICK x = false ->
  exists t', clean (w ++ x :: t) = x :: t'.
Proof.
  intros Hw Hx Hb. unfold clean, remove_all.
  rewrite re_fence_json_of, re_fence_of.
  destruct (spaces_keep (lit "```json") None w (x :: t)) as [b1 ->];
    trivial; [discriminate | apply json_fence_starts_with_marker |].
  rewrite no_backtick_keep; trivial;
    [|discriminate | apply json_fence_starts_with_marker].
  destruct (spaces_keep fence_marker None w
              (x :: remove_from (fence_of (lit "```json")) 0 (Some x) t))
    as [b2 ->]; trivial; [discriminate|].
  rewrite no_backtick_keep; trivial; [|discriminate].
  now apply trim_head.
Qed.

(** The same behind an opening fence whose tag is not [json]. *)
Lemma clean_head_fenced (w : jsstring) (x : char) (t : jsstring) :
  forallb is_space w = true -> is_space x = false ->
  N.eqb BACKTICK x = false ->
  startsWith (x :: t) (lit "json") = false ->
  exists t', clean (w ++ fence_marker ++ x :: t) = x :: t'.
Proof.
  intros Hw Hx Hb Hj. unfold clean, remove_all.
  rewrite re_fence_json_of, re_fence_of.
  destruct (spaces_keep (lit "```json") None w (fence_marker ++ x :: t))
    as [b1 ->]; trivial; [discriminate | apply json_fence_starts_with_marker |].
  change (fence_marker ++ x :: t)
    with (BACKTICK :: BACKTICK :: BACKTICK :: x :: t).
  assert (K1 : startsWith (BACKTICK :: BACKTICK :: BACKTICK :: x :: t)
                          (lit "```json") = false).
  { change (lit "```json") with (fence_marker ++ lit "json").
    change fence_marker with [BACKTICK; BACKTICK; BACKTICK].
    cbn [app startsWith]. unfold BACKTICK. cbn [N.eqb Pos.eqb andb].
    exact Hj. }
  assert (K2 : startsWith (BACKTICK :: BACKTICK :: x :: t) (lit "```json")
               = false).
  { change (lit "```json") with (BACKTICK :: BACKTICK :: BACKTICK :: lit "json").
    cbn [startsWith]. rewrite Hb. now rewrite !andb_false_r. }
  assert (K3 : startsWith (BACKTICK :: x :: t) (lit "```json") = false).
  { change (lit "```json") with (BACKTICK :: BACKTICK :: BACKTICK :: lit "json").
    cbn [startsWith]. rewrite Hb. now rewrite !andb_false_r. }
  rewrite (remove_fence_keep (lit "```json") _ _ _ ltac:(discriminate) K1).
  rewrite (remove_fence_keep (lit "```json") _ _ _ ltac:(discriminate) K2).
  rewrite (remove_fence_keep (lit "```json") _ _ _ ltac:(discriminate) K3).
  rewrite (no_backtick_keep (lit "```json")); trivial;
    [|discriminate | apply json_fence_starts_with_marker].
  set (t1 := remove_from (fence_of (lit "```json")) 0 (Some x) t).
  destruct (spaces_keep fence_marker None w
              (BACKTICK :: BACKTICK :: BACKTICK :: x :: t1))
    as [b2 ->]; trivial; [discriminate|].
  assert (D : remove_from (fence_of fence_marker) 0 b2
                          (BACKTICK :: BACKTICK :: BACKTICK :: x :: t1)
              = x :: remove_from (fence_of fence_marker) 0 (Some x) t1).
  { assert (Hlf : N.eqb x LF = false).
    { destruct (N.eqb_spec x LF) as [->|]; [discriminate|reflexivity]. }
    cbn [remove_from].
    assert (M : matches (fence_of fence_marker)
                        (Pos b2 (BACKTICK :: BACKTICK :: BACKTICK :: x :: t1))
                = [Pos (Some BACKTICK) (x :: t1)]).
    { unfold fence_of. cbn [matches].
      rewrite matches_chars by discriminate.
      cbn. now rewrite Hlf. }
    rewrite M. simpl rest.
    assert (E : (List.length (BACKTICK :: BACKTICK :: BACKTICK :: x :: t1)
                 - List.length (x :: t1) = 3)%nat)
      by (cbn [List.length]; lia).
    rewrite E. apply no_backtick_keep; trivial; discriminate. }
  rewrite D. now apply trim_head.
Qed.

(** X5.  A response whose first character after any leading white space
    can begin no JSON token (and is no backtick) is a parse failure for
    all six normalizers: prose before the JSON is not skipped. *)
Theorem prose_is_a_parse_failure (w : jsstring) (x : char) (t : jsstring) :
  forallb is_space w = true ->
  is_space x = false -> N.eqb BACKTICK x = false -> begins_token x = false ->
  parseExplainerResponse (w ++ x :: t) = Throw parse_failure
  /\ parseBugFinderResponse (w ++ x :: t) = Throw parse_failure
  /\ parseRefactoringResponse (w ++ x :: t) = Throw parse_failure
  /\ parseCodeSmellResponse (w ++ x :: t) = Throw parse_failure
  /\ parseComplexityResponse (w ++ x :: t) = Throw parse_failure
  /\ parseSecurityResponse (w ++ x :: t) = Throw parse_failure.
Proof.
  intros Hw Hx Hb Ht. apply normalizers_fail.
  destruct (clean_head w x t Hw Hx Hb) as [t' ->].
  now apply JSON_parse_bad_start.
Qed.

Lemma prose_is_a_parse_failure_witness :
  parseRefactoringResponse (LF :: json "Here is the analysis: {'overallScore': 90}")
  = Throw parse_failure.
Proof.
  apply (prose_is_a_parse_failure [LF] 72%N
           (json "ere is the analysis: {'overallScore': 90}"));
    reflexivity.
Defined.

(** X6.  A response that opens with a fence whose tag is not [json] and
    can begin no JSON token, such as [javascript] or [JSON], is a parse
    failure for all six normalizers, whatever follows: only the three
    backticks are taken off, the tag stays. *)
Theorem foreign_fence_tag_is_a_parse_failure
        (w : jsstring) (x : char) (t : jsstring) :
  forallb is_space w = true ->
  is_space x = false -> N.eqb BACKTICK x = false -> begins_token x = false ->
  startsWith (x :: t) (lit "json") = false ->
  parseExplainerResponse (w ++ fence_marker ++ x :: t) = Throw parse_failure
  /\ parseBugFinderResponse (w ++ fence_marker ++ x :: t) = Throw parse_failure
  /\ parseRefactoringResponse (w ++ fence_marker ++ x :: t) = Throw parse_failure
  /\ parseCodeSmellResponse (w ++ fence_marker ++ x :: t) = Throw parse_failure
  /\ parseComplexityResponse (w ++ fence_marker ++ x :: t) = Throw parse_failure
  /\ parseSecurityResponse (w ++ fence_marker ++ x :: t) = Throw parse_failure.
Proof.
  intros Hw Hx Hb Ht Hj. apply normalizers_fail.
  destruct (clean_head_fenced w x t Hw Hx Hb Hj) as [t' ->].
  now apply JSON_parse_bad_start.
Qed.

Lemma foreign_fence_tag_is_a_parse_failure_witness :
  parseBugFinderResponse (fenced (lit "javascript") (json "{'bugs': []}"))
  = Throw parse_failure.
Proof.
  apply (foreign_fence_tag_is_a_parse_failure [] 106%N
           (lit "avascript" ++ LF :: json "{'bugs': []}" ++ LF :: fence_marker));
    reflexivity.
Defined.

(** X7.  A response wrapped in a fence with the tag [json] or with no
    tag, whose body holds no fence marker, is cleaned to the trimmed
    body, and every normalizer returns on it what it returns on the bare
    body. *)
Theorem fenced_response_is_unwrapped (body : jsstring) :
  includes body fence_marker = false ->
  (clean (fenced (lit "json") body) = trim body
   /\ clean (fenced [] body) = trim body)
  /\ (parseExplainerResponse (fenced (lit "json") body)
      = parseExplainerResponse body
      /\ parseBugFinderResponse (fenced (lit "json") body)
         = parseBugFinderResponse body
      /\ parseRefactoringResponse (fenced (lit "json") body)
         = parseRefactoringResponse body
      /\ parseCodeSmellResponse (fenced (lit "json") body)
         = parseCodeSmellResponse body
      /\ parseComplexityResponse (fenced (lit "json") body)
         = parseComplexityResponse body
      /\ parseSecurityResponse (fenced (lit "json") body)
         = parseSecurityResponse body)
  /\ (parseExplainerResponse (fenced [] body) = parseExplainerResponse body
      /\ parseBugFinderResponse (fenced [] body) = parseBugFinderResponse body
      /\ parseRefactoringResponse (fenced [] body)
         = parseRefactoringResponse body
      /\ parseCodeSmellResponse (fenced [] body) = parseCodeSmellResponse body
      /\ parseComplexityResponse (fenced [] body)
         = parseComplexityResponse body
      /\ parseSecurityResponse (fenced [] body) = parseSecurityResponse body).
Proof.
  intros H.
  pose proof (clean_fenced_json body H) as E1.
  pose proof (clean_fenced_plain body H) as E2.
  pose proof (clean_fence_free body H) as E0.
  split; [now split|].
  split; apply normalizers_by_clean; congruence.
Qed.

Lemma fenced_response_is_unwrapped_witness :
  parseRefactoringResponse
    (fenced [] (json "{'overallScore': 42, 'suggestions': []}"))
  = parseRefactoringResponse (json "{'overallScore': 42, 'suggestions': []}").
Proof.
  destruct (fenced_response_is_unwrapped
              (json "{'overallScore': 42, 'suggestions': []}"))
    as (_ & _ & _ & _ & H & _); [reflexivity | exact H].
Defined.

End NormalizerExtras.

Section ResultFacts.

Local Open Scope string_scope.
Local Open Scope list_scope.

(** X8.  A response that is a JSON array, string, number or boolean is
    accepted, and every normalizer returns on it the all-default result
    it returns on [{}]. *)
Theorem scalar_response_is_all_defaults (response : jsstring) (data : value) :
  JSON_parse (clean response) = Some data ->
  not_an_object data = true ->
  parseExplainerResponse response = parseExplainerResponse (lit "{}")
  /\ parseBugFinderResponse response = parseBugFinderResponse (lit "{}")
  /\ parseRefactoringResponse response = parseRefactoringResponse (lit "{}")
  /\ parseCodeSmellResponse response = parseCodeSmellResponse (lit "{}")
  /\ parseComplexityResponse response = parseComplexityResponse (lit "{}")
  /\ parseSecurityResponse response = parseSecurityResponse (lit "{}").
Proof.
  intros Hp Hn.
  rewrite !parseExplainerResponse_shape, !parseBugFinderResponse_shape,
    !parseRefactoringResponse_shape, !parseCodeSmellResponse_shape,
    !parseComplexityResponse_shape, !parseSecurityResponse_shape, Hp.
  change (JSON_parse (clean (lit "{}"))) with (Some (VObj [])).
  destruct data; try discriminate; repeat split.
Qed.

Lemma scalar_response_is_all_defaults_witness :
  parseSecurityResponse (json "[{'id': 'VULN-001'}]")
  = parseSecurityResponse (lit "{}").
Proof.
  apply (scalar_response_is_all_defaults (json "[{'id': 'VULN-001'}]")
           (VArr [VObj [(lit "id", VStr (lit "VULN-001"))]]));
    reflexivity.
Defined.

Lemma dflt_truthy_default (x d : value) :
  truthy d = true -> truthy (dflt x d) = true.
Proof. unfold dflt. intros H. now destruct (truthy x) eqn:E. Qed.

Lemma dflt_truthy_or_zero (x y : value) :
  truthy_or_zero y -> truthy_or_zero (dflt x y).
Proof.
  unfold dflt, truthy_or_zero. intros H.
  now destruct (truthy x) eqn:E; [left|].
Qed.

(** X9.  No field of a returned result is undefined, null or otherwise
    falsy, except a total, which may be the number 0: every list,
    histogram, summary and score is truthy; in particular no returned
    score is 0. *)
Theorem result_fields_are_defined (response : jsstring) :
  (forall r, parseExplainerResponse response = Ok r ->
             truthy (ExplainerResult.summary r) = true
             /\ truthy (ExplainerResult.explanations r) = true)
  /\ (forall r, parseBugFinderResponse response = Ok r ->
                truthy (BugFinderResult.bugs r) = true
                /\ truthy_or_zero (BugFinderResult.totalCount r)
                /\ truthy (BugFinderResult.severitySummary r) = true)
  /\ (forall r, parseRefactoringResponse response = Ok r ->
                truthy (RefactorResult.suggestions r) = true
                /\ truthy (RefactorResult.overallScore r) = true)
  /\ (forall r, parseCodeSmellResponse response = Ok r ->
                truthy (CodeSmellResult.smells r) = true
                /\ truthy_or_zero (CodeSmellResult.totalCount r)
                /\ truthy (CodeSmellResult.categorySummary r) = true
                /\ truthy (CodeSmellResult.overallHealthScore r) = true)
  /\ (forall r, parseComplexityResponse response = Ok r ->
                truthy (ComplexityResult.functions r) = true
                /\ truthy (ComplexityResult.overallMetrics r) = true
                /\ truthy (ComplexityResult.maintainabilityIndex r) = true
                /\ truthy (ComplexityResult.recommendations r) = true)
  /\ (forall r, parseSecurityResponse response = Ok r ->
                truthy (SecurityResult.vulnerabilities r) = true
                /\ truthy_or_zero (SecurityResult.totalCount r)
                /\ truthy (SecurityResult.severitySummary r) = true
                /\ truthy (SecurityResult.categorySummary r) = true
                /\ truthy (SecurityResult.securityScore r) = true
                /\ truthy (SecurityResult.recommendations r) = true).
Proof.
  rewrite parseExplainerResponse_shape, parseBugFinderResponse_shape,
    parseRefactoringResponse_shape, parseCodeSmellResponse_shape,
    parseComplexityResponse_shape, parseSecurityResponse_shape.
  destruct (JSON_parse (clean response)) as [data|];
    [|repeat split; discriminate].
  destruct (non_null data); [|repeat split; discriminate].
  repeat apply conj; intros r [= <-]; simpl;
    repeat apply conj;
    first [ apply dflt_truthy_default; reflexivity
          | repeat apply dflt_truthy_or_zero; now right ].
Qed.

Lemma result_fields_are_defined_witness :
  exists r, parseRefactoringResponse zero_score = Ok r
            /\ truthy (RefactorResult.overallScore r) = true.
Proof.
  destruct (result_fields_are_defined zero_score) as (_ & _ & H & _).
  eexists. split; [reflexivity|]. now apply H.
Defined.

Lemma agrees_dflt (p : value) :
  agrees (dflt p (VArr [])) (dflt (length_of p) (num 0)).
Proof.
  intros items. unfold dflt at 1. destruct (truthy p) eqn:E.
  - intros ->. now apply counted_dflt.
  - intros [= <-].
    destruct p as [| |[|]|n|[|]| |]; try discriminate; try reflexivity.
Qed.

(** X10.  In a code smell and in a security result the total always
    agrees with the findings: whenever the result's findings are an
    array, [totalCount] is its length, whatever total the response
    carried. *)
Theorem derived_totals_agree (response : jsstring) :
  (forall r, parseCodeSmellResponse response = Ok r ->
             agrees (CodeSmellResult.smells r) (CodeSmellResult.totalCount r))
  /\ (forall r, parseSecurityResponse response = Ok r ->
                agrees (SecurityResult.vulnerabilities r)
                       (SecurityResult.totalCount r)).
Proof.
  rewrite parseCodeSmellResponse_shape, parseSecurityResponse_shape.
  destruct (JSON_parse (clean response)) as [data|];
    [|split; discriminate].
  destruct (non_null data); [|split; discriminate].
  split; intros r [= <-]; apply agrees_dflt.
Qed.

Lemma derived_totals_agree_witness :
  exists r, parseSecurityResponse
              (json "{'vulnerabilities': [{}, {}], 'totalCount': 7}") = Ok r
            /\ SecurityResult.totalCount r = num 2.
Proof.
  destruct (derived_totals_agree
              (json "{'vulnerabilities': [{}, {}], 'totalCount': 7}"))
    as [_ H].
  eexists. split; [reflexivity|].
  apply (H _ eq_refl [VObj []; VObj []]). reflexivity.
Defined.

(** X11.  The cleaned text holds no fence marker and has no white space
    at either end, and a normalizer returns on the cleaned text what it
    returns on the response. *)
Theorem cleaned_text_is_clean (response : jsstring) :
  includes (clean response) fence_marker = false
  /\ trim (clean response) = clean response
  /\ parseExplainerResponse (clean response) = parseExplainerResponse response
  /\ parseBugFinderResponse (clean response) = parseBugFinderResponse response
  /\ parseRefactoringResponse (clean response)
     = parseRefactoringResponse response
  /\ parseCodeSmellResponse (clean response) = parseCodeSmellResponse response
  /\ parseComplexityResponse (clean response)
     = parseComplexityResponse response
  /\ parseSecurityResponse (clean response) = parseSecurityResponse response.
Proof.
  split; [apply clean_clears|]. split; [apply trim_clean|].
  apply normalizers_by_clean.
  rewrite (clean_fence_free _ (clean_clears response)). apply trim_clean.
Qed.

End ResultFacts.

(* ===================================================================== *)
(** ** More on the language detector *)
(* ===================================================================== *)

Section DetectorExtras.

Local Open Scope string_scope.
Local Open Scope list_scope.

Lemma detect_by_trim (a b : jsstring) : trim a = trim b -> detect a = detect b.
Proof.
  intros E. unfold detect, blank, probe_input_of. now rewrite E.
Qed.

(** X12.  The detector reads the trimmed code only: white space before
    and after the code, blank lines included, never changes the
    language. *)
Theorem detectLanguage_ignores_surrounding_space (w1 code w2 : jsstring) :
  forallb is_space w1 = true -> forallb is_space w2 = true ->
  detectLanguage (w1 ++ code ++ w2) = detectLanguage code
  /\ detectLanguage (trim code) = detectLanguage code.
Proof.
  intros H1 H2. rewrite !detectLanguage_cascade. split; apply detect_by_trim.
  - now apply trim_app_spaces.
  - apply trim_idem.
Qed.

Lemma detectLanguage_ignores_surrounding_space_witness :
  detectLanguage ([LF; LF] ++ def_snippet ++ lit "  " ++ [LF])
  = detectLanguage def_snippet.
Proof.
  apply (detectLanguage_ignores_surrounding_space
           [LF; LF] def_snippet (lit "  " ++ [LF])); reflexivity.
Defined.

(** X13.  The result is [javascript] exactly when the code is blank or
    none of the nine signatures before JavaScript's matches: the
    JavaScript signature itself decides nothing. *)
Theorem javascript_iff_nothing_else (code : jsstring) :
  detectLanguage code = lit "javascript"
  <-> (blank code = true
       \/ first_match (firstn 9 cascade) (probe_input_of code) = None).
Proof.
  rewrite detectLanguage_cascade. unfold detect.
  destruct (blank code); [tauto|].
  cbn [firstn cascade first_match].
  repeat match goal with
         | |- context [if ?g (probe_input_of code) then _ else _] =>
             destruct (g (probe_input_of code));
             [split; [intros H; vm_compute in H; discriminate
                     | intros [H | H]; discriminate]|]
         end.
  destruct (sig_javascript (probe_input_of code));
    (split; [now right | reflexivity]).
Qed.

End DetectorExtras.
Section PythonKeywords.

Local Open Scope string_scope.
Local Open Scope list_scope.

Lemma test_at_start (r : regex) (s : jsstring) :
  matches_at r (Pos None s) = true -> test r s = true.
Proof. intros H. unfold test. destruct s; simpl; now rewrite H. Qed.

Lemma python1_keyword (kw : string) (c : char) (rest : jsstring) :
  In kw python_openers -> is_space c = true ->
  test re_python1 (lit kw ++ c :: rest) = true.
Proof.
  intros Hk Hc. apply test_at_start.
  unfold python_openers in Hk. simpl in Hk.
  repeat (destruct Hk as [<- | Hk];
          [unfold matches_at; cbn; rewrite Hc; reflexivity|]).
  contradiction.
Qed.

(** X14.  Code whose content (its non-blank lines that are no comments)
    begins with [def], [class], [import], [from], [if __name__],
    [print(] or [async def] followed by a white space character is
    [python], whatever else it holds: a Java file that begins with an
    import, or a TypeScript file that begins with a class, never gets its
    own tag. *)
Theorem python_opener_wins (code : jsstring) (kw : string) (c : char)
        (rest : jsstring) :
  trim code <> [] ->
  In kw python_openers -> is_space c = true ->
  content_of (lines_of (trim code)) = lit kw ++ c :: rest ->
  detectLanguage code = lit "python".
Proof.
  intros Hne Hk Hc Hcontent.
  rewrite detectLanguage_cascade. unfold detect.
  rewrite (blank_false code Hne).
  assert (Hpy : sig_python (probe_input_of code) = true).
  { unfold sig_python, probe_input_of; cbn [lines codeContent].
    now rewrite Hcontent, python1_keyword. }
  cbn [first_match cascade]. now rewrite Hpy.
Qed.

End PythonKeywords.

Lemma python_opener_wins_witness :
  sig_java (probe_input_of java_with_import) = true
  /\ detectLanguage java_with_import = lit "python".
Proof.
  split; [now vm_compute|].
  apply (python_opener_wins java_with_import "import" 32%N
           (lit "java.util.List;" ++ LF :: lit "public class A {}"));
    [now vm_compute | cbn; tauto | reflexivity | now vm_compute].
Defined.

(* ===================================================================== *)
(** ** The application state: theorems *)
(* ===================================================================== *)

Section AppFacts.

Local Open Scope string_scope.
Local Open Scope list_scope.

Lemma str_eqb_eq (a b : jsstring) : str_eqb a b = true <-> a = b.
Proof.
  revert b. induction a as [|x a IH]; intros [|y b]; simpl;
    try (split; [discriminate | discriminate]); [tauto|].
  rewrite andb_true_iff, N.eqb_eq, IH. split.
  - now intros [-> ->].
  - now intros [= -> ->].
Qed.

Lemma str_eqb_refl (a : jsstring) : str_eqb a a = true.
Proof. now apply str_eqb_eq. Qed.

Lemma language_differs_false (a b : language_value) :
  language_differs a b = false -> a = b.
Proof.
  destruct a as [x|x], b as [y|y]; simpl; try discriminate; intros H;
    apply negb_false_iff in H.
  - apply str_eqb_eq in H. now subst.
  - apply String.eqb_eq in H. now subst.
Qed.

Lemma detectLanguage_in_tags (code : jsstring) :
  In (detectLanguage code) language_tags.
Proof.
  rewrite detectLanguage_cascade. unfold detect.
  destruct (blank code); [vm_compute; tauto|].
  destruct (first_match cascade (probe_input_of code)) as [tag|] eqn:E;
    [|vm_compute; tauto].
  apply first_match_tag in E. simpl in E.
  repeat (destruct E as [<- | E]; [vm_compute; tauto|]).
  contradiction.
Qed.

Lemma own_languageMap_tag (e : jsstring) (tag : string) :
  own languageMap e = Some tag -> In (lit tag) language_tags.
Proof.
  unfold languageMap. cbn [own].
  repeat match goal with
         | |- (if ?c then _ else _) = _ -> _ =>
             destruct c; [intros [= <-]; vm_compute; tauto|]
         end.
  discriminate.
Qed.

(** The pieces of a name that holds a dot: those before the last dot,
    then what follows it. *)
Lemma split_on_last (sep : char) (base ext : jsstring) :
  forallb (fun c => negb (N.eqb c sep)) ext = true ->
  exists p ps, split_on sep (base ++ sep :: ext) = (p :: ps) ++ [ext].
Proof.
  intros Hext.
  assert (E : split_on sep ext = [ext]).
  { induction ext as [|c ext IH]; [reflexivity|].
    simpl in Hext. apply andb_true_iff in Hext as [Hc Hext].
    apply negb_true_iff in Hc. simpl. rewrite Hc, IH by assumption.
    reflexivity. }
  induction base as [|c base (p & ps & IH)].
  - exists [], []. simpl. now rewrite N.eqb_refl, E.
  - simpl. destruct (N.eqb c sep).
    + exists [], (p :: ps). now rewrite IH.
    + rewrite IH. now exists (c :: p), ps.
Qed.

(** [String.prototype.toLowerCase] is a parameter of what follows; the
    one thing some statements ask of it is what it does to ASCII
    strings. *)
Variable toLowerCase : jsstring -> jsstring.

Lemma extension_of_dotted (base ext : jsstring) :
  forallb (fun c => negb (N.eqb c DOT)) ext = true ->
  extension_of toLowerCase (base ++ DOT :: ext) = toLowerCase ext.
Proof.
  intros H. unfold extension_of.
  destruct (split_on_last DOT base ext H) as (p & ps & ->).
  now rewrite last_last.
Qed.

(** X15.  A loaded file whose lower-cased extension is neither a key of
    the extension table nor a member of [Object.prototype], or whose name
    ends with a dot, gets the language the detector finds in its
    content, one of the ten tags; the code becomes the content and the
    results are hidden. *)
Theorem unknown_extension_falls_back (st : state) (fileName content : jsstring) :
  is_empty (extension_of toLowerCase fileName) = true
  \/ languageMap_get (extension_of toLowerCase fileName) = None ->
  let st' := reader_onload toLowerCase st fileName content in
  language st' = LangString (detectLanguage content)
  /\ language_ok st'
  /\ code st' = content
  /\ showResults st' = false.
Proof.
  intros H. cbv zeta. unfold reader_onload.
  assert (E : (if is_empty (extension_of toLowerCase fileName) then None
               else languageMap_get (extension_of toLowerCase fileName))
              = None).
  { destruct H as [-> | ->]; [reflexivity|].
    now destruct (is_empty (extension_of toLowerCase fileName)). }
  rewrite E. cbn. repeat split.
  exists (detectLanguage content). split; [apply detectLanguage_in_tags|reflexivity].
Qed.

Hypothesis toLowerCase_ascii :
  forall s, forallb is_ascii s = true -> toLowerCase s = map ascii_lower s.

(** X16.  A loaded file whose name ends with a dot and an ASCII
    extension that, lower-cased, is a key of the extension table gets the
    language of that key, whatever its content and whatever the case of
    the extension. *)
Theorem known_extension_decides
        (st : state) (base ext content : jsstring) (tag : string) :
  forallb (fun c => negb (N.eqb c DOT)) ext = true ->
  forallb is_ascii ext = true ->
  own languageMap (map ascii_lower ext) = Some tag ->
  let st' := reader_onload toLowerCase st (base ++ DOT :: ext) content in
  language st' = LangString (lit tag)
  /\ code st' = content
  /\ showResults st' = false.
Proof.
  intros Hdot Hascii Hown. cbv zeta. unfold reader_onload.
  rewrite (extension_of_dotted base ext Hdot), (toLowerCase_ascii ext Hascii).
  unfold languageMap_get. rewrite Hown.
  destruct (map ascii_lower ext) as [|c e] eqn:E; [discriminate|].
  cbn. repeat split.
Qed.

Lemma split_on_no_sep (sep : char) (s : jsstring) :
  forallb (fun c => negb (N.eqb c sep)) s = true -> split_on sep s = [s].
Proof.
  induction s as [|c s IH]; [reflexivity|].
  simpl. intros H. apply andb_true_iff in H as [Hc H].
  apply negb_true_iff in Hc. now rewrite Hc, IH.
Qed.

(** X17.  A file name without a dot is its own extension: when the whole
    ASCII name, lower-cased, is a key of the extension table, the file
    gets the language of that key, whatever its content. *)
Theorem dotless_name_is_its_extension
        (st : state) (fileName content : jsstring) (tag : string) :
  forallb (fun c => negb (N.eqb c DOT)) fileName = true ->
  forallb is_ascii fileName = true ->
  own languageMap (map ascii_lower fileName) = Some tag ->
  language (reader_onload toLowerCase st fileName content)
  = LangString (lit tag).
Proof.
  intros Hdot Hascii Hown. unfold reader_onload, extension_of.
  rewrite (split_on_no_sep DOT fileName Hdot). cbn [last].
  rewrite (toLowerCase_ascii fileName Hascii).
  unfold languageMap_get. rewrite Hown.
  destruct (map ascii_lower fileName) as [|c e] eqn:E; [discriminate|].
  reflexivity.
Qed.

End AppFacts.

Lemma dotless_name_is_its_extension_witness :
  language (reader_onload (map ascii_lower) initial (lit "Go")
                          (lit "def f(): pass"))
  = LangString (lit "go").
Proof.
  apply (dotless_name_is_its_extension (map ascii_lower)
           (fun s _ => eq_refl) initial (lit "Go") (lit "def f(): pass") "go");
    reflexivity.
Defined.

Lemma unknown_extension_falls_back_witness :
  language (reader_onload (map ascii_lower) initial (lit "main.c")
                          (lit "#include <stdio.h>"))
  = LangString (lit "cpp").
Proof.
  destruct (unknown_extension_falls_back (map ascii_lower) initial
              (lit "main.c") (lit "#include <stdio.h>")) as [H _];
    [right; reflexivity|].
  rewrite H. now vm_compute.
Defined.

Lemma known_extension_decides_witness :
  language (reader_onload (map ascii_lower) initial (lit "notes.v2.PY")
                          (lit "public class Foo {}"))
  = LangString (lit "python").
Proof.
  apply (known_extension_decides (map ascii_lower) (fun s _ => eq_refl)
           initial (lit "notes.v2") (lit "PY") (lit "public class Foo {}")
           "python"); reflexivity.
Defined.

Section AppInvariants.

Local Open Scope string_scope.
Local Open Scope list_scope.

Variable toLowerCase : jsstring -> jsstring.

Lemma step_language_ok (st : state) (e : event) :
  language_ok st -> ordinary toLowerCase e ->
  language_ok (step toLowerCase st e).
Proof.
  intros Hst He. destruct e; cbn [step ordinary] in *; trivial.
  - unfold handleCodeChange.
    destruct (_ <? _)%nat; [|exact Hst].
    destruct (language_differs _ _); [|exact Hst].
    exists (detectLanguage newCode). split; [apply detectLanguage_in_tags|reflexivity].
  - unfold handleFileUpload. destruct chosen as [f|]; [|exact Hst].
    now destruct (_ <? _)%N.
  - unfold reader_onload, languageMap_get. rewrite He.
    destruct (is_empty (extension_of toLowerCase fileName));
      [|destruct (own languageMap (extension_of toLowerCase fileName))
          as [tag|] eqn:E].
    + exists (detectLanguage content). split; [apply detectLanguage_in_tags|reflexivity].
    + exists (lit tag). split; [now apply own_languageMap_tag in E|reflexivity].
    + exists (detectLanguage content). split; [apply detectLanguage_in_tags|reflexivity].
  - unfold handleAnalyze.
    destruct (is_empty (trim (code st))); [exact Hst|].
    now destruct (is_empty (apiKey (aiConfig st))).
  - now exists tag.
Qed.

(** X18.  Starting from the initial state, after any sequence of events
    in which the language selector yields one of its ten options and no
    loaded file has an extension that names a member of
    [Object.prototype], the language is one of the ten tags. *)
Theorem language_stays_a_tag (es : list event) :
  Forall (ordinary toLowerCase) es ->
  language_ok (run toLowerCase initial es).
Proof.
  assert (G : forall st, language_ok st -> Forall (ordinary toLowerCase) es ->
                         language_ok (run toLowerCase st es)).
  { induction es as [|e es IH]; intros st Hst Hes; [exact Hst|].
    inversion Hes; subst. cbn [run fold_left].
    apply IH; trivial. now apply step_language_ok. }
  apply G. exists (lit "javascript"). split; [vm_compute; tauto|reflexivity].
Qed.

(** X19.  An edit that makes the code longer by more than ten characters
    sets the language to what the detector finds in the new code,
    whatever the language was; any other edit leaves the language as it
    is.  Only the code and the language change. *)
Theorem handleCodeChange_language (st : state) (newCode : jsstring) :
  let st' := handleCodeChange st newCode in
  language st'
  = (if (List.length (code st) + 10 <? List.length newCode)%nat
     then LangString (detectLanguage newCode) else language st)
  /\ code st' = newCode
  /\ selectedFeature st' = selectedFeature st
  /\ showResults st' = showResults st
  /\ isAnalyzing st' = isAnalyzing st
  /\ toasts st' = toasts st
  /\ aiConfig st' = aiConfig st.
Proof.
  cbv zeta. unfold handleCodeChange.
  destruct (_ <? _)%nat; [|now repeat split].
  destruct (language_differs _ _) eqn:E; [now repeat split|].
  apply language_differs_false in E. now repeat split.
Qed.

(** X20.  A chosen file is handed to the reader exactly when its size is
    at most 1048576 bytes, and then the state is untouched; a larger file
    is not read: the code and the language stay, and one error toast is
    added. *)
Theorem upload_size_limit (st : state) (f : file) (now : jsstring) :
  (N.leb (size f) 1048576 = true ->
   handleFileUpload st (Some f) now = (st, Some f))
  /\ (N.leb (size f) 1048576 = false ->
      snd (handleFileUpload st (Some f) now) = None
      /\ code (fst (handleFileUpload st (Some f) now)) = code st
      /\ language (fst (handleFileUpload st (Some f) now)) = language st
      /\ toasts (fst (handleFileUpload st (Some f) now))
         = toasts st
             ++ [Toast.mk now (lit "File size must be less than 1MB")
                          Toast.error]).
Proof.
  unfold handleFileUpload. change (1024 * 1024)%N with 1048576%N.
  rewrite N.ltb_antisym. split; intros ->; cbn; repeat split.
Qed.

(** X21.  The results panel opens only through [handleAnalyze], and only
    with code that is not blank and a key that is not the empty string:
    if an event turns [showResults] on, it is an Analyze event met in
    such a state. *)
Theorem results_open_only_on_analyze (st : state) (e : event) :
  showResults st = false ->
  showResults (step toLowerCase st e) = true ->
  (exists now, e = Analyze now)
  /\ is_empty (trim (code st)) = false
  /\ apiKey (aiConfig st) <> [].
Proof.
  intros H0. destruct e; cbn [step].
  - unfold handleCodeChange.
    destruct (_ <? _)%nat; [destruct (language_differs _ _)|]; cbn; congruence.
  - unfold handleFileUpload. destruct chosen as [f|]; [|cbn; congruence].
    destruct (_ <? _)%N; cbn; congruence.
  - unfold reader_onload.
    destruct (if is_empty _ then _ else _); cbn; discriminate.
  - cbn. congruence.
  - unfold handleAnalyze.
    destruct (is_empty (trim (code st))); [cbn; congruence|].
    destruct (apiKey (aiConfig st)) as [|c k]; [cbn; congruence|].
    intros _. repeat split; [now exists now | discriminate].
  - cbn. discriminate.
  - cbn. discriminate.
  - cbn. congruence.
  - cbn. congruence.
  - cbn. congruence.
  - cbn. congruence.
Qed.

End AppInvariants.

Section AnalyzeFacts.

Local Open Scope string_scope.
Local Open Scope list_scope.

Variables callOpenAI callAnthropic callGoogle
  : jsstring -> AIConfig -> outcome jsstring.

Lemma showToast_changes (st : state) (now message : jsstring)
      (type : Toast.kind) (b : bool) :
  showToast st now message type <> setShowResults st b.
Proof.
  intros H. apply (f_equal toasts) in H. cbn in H.
  apply (f_equal (@List.length _)) in H. rewrite length_app in H.
  simpl in H. lia.
Qed.

(** X22.  With code in the editor, [handleAnalyze] shows the results
    exactly when the key is not the empty string, while [callAI] also
    refuses a key of white space only: for such a key the results panel
    opens and the call throws the key-required error.  A key [callAI]
    accepts is always accepted by [handleAnalyze]. *)
Theorem key_guards (st : state) (now prompt : jsstring) :
  is_empty (trim (code st)) = false ->
  (handleAnalyze st now = setShowResults st true
   <-> apiKey (aiConfig st) <> [])
  /\ (apiKey_missing (apiKey (aiConfig st)) = false ->
      handleAnalyze st now = setShowResults st true)
  /\ (apiKey (aiConfig st) <> [] -> trim (apiKey (aiConfig st)) = [] ->
      handleAnalyze st now = setShowResults st true
      /\ callAI callOpenAI callAnthropic callGoogle prompt (aiConfig st)
         = Thrown key_required).
Proof.
  intros Hcode. unfold handleAnalyze. rewrite Hcode.
  split; [|split].
  - destruct (apiKey (aiConfig st)) as [|c k]; cbn [is_empty].
    + split; [|now intros K].
      intros K. now apply showToast_changes in K.
    + split; [discriminate | reflexivity].
  - unfold apiKey_missing. intros K.
    apply orb_false_iff in K as [-> _]. reflexivity.
  - intros K1 K2. split.
    + now destruct (apiKey (aiConfig st)).
    + unfold callAI, apiKey_missing. rewrite K2. now rewrite orb_true_r.
Qed.

End AnalyzeFacts.

Section ToastFacts.

Lemma setToasts_same (st : state) : setToasts st (toasts st) = st.
Proof. now destruct st. Qed.

Lemma filter_fresh (id : jsstring) (ts : list Toast.t) :
  (forall t, In t ts -> Toast.id t <> id) ->
  filter (fun toast => negb (str_eqb (Toast.id toast) id)) ts = ts.
Proof.
  induction ts as [|t ts IH]; intros H; simpl; [reflexivity|].
  destruct (str_eqb (Toast.id t) id) eqn:E.
  - apply str_eqb_eq in E. now elim (H t (or_introl eq_refl)).
  - simpl. rewrite IH; [reflexivity|]. intros t' Ht'. apply H. now right.
Qed.

(** X23.  Closing a toast right after showing it gives the state back,
    when no toast on display has the same id; two toasts shown with the
    same id (the id is the millisecond clock) close together. *)
Theorem toast_round_trip (st : state) (now m1 m2 : jsstring)
        (k1 k2 : Toast.kind) :
  (forall t, In t (toasts st) -> Toast.id t <> now) ->
  removeToast (showToast st now m1 k1) now = st
  /\ removeToast (showToast (showToast st now m1 k1) now m2 k2) now = st.
Proof.
  intros H. destruct st as [f c l s a ts cfg]. cbn [toasts] in H.
  unfold removeToast, showToast, setToasts. cbn.
  rewrite <- !app_assoc, !filter_app, (filter_fresh now ts H).
  cbn [filter Toast.id app]. rewrite str_eqb_refl. cbn [negb].
  cbn [app]. rewrite !app_nil_r. split; reflexivity.
Qed.

End ToastFacts.

Lemma language_stays_a_tag_witness :
  language_ok
    (run (map ascii_lower) initial
         [FileLoaded (lit "a.rs") (lit "x"); CodeChange (lit "y");
          SelectLanguage (lit "go"); Analyze (lit "17"); Clear]).
Proof.
  apply (language_stays_a_tag (map ascii_lower)).
  repeat (apply Forall_cons; [cbn [ordinary]; vm_compute; tauto|]).
  apply Forall_nil.
Defined.

Lemma upload_size_limit_witness :
  handleFileUpload initial (Some {| name := lit "a.py"; size := 1048576 |}) []
  = (initial, Some {| name := lit "a.py"; size := 1048576 |})
  /\ snd (handleFileUpload initial
            (Some {| name := lit "a.py"; size := 1048577 |}) []) = None.
Proof.
  split.
  - apply (upload_size_limit initial {| name := lit "a.py"; size := 1048576 |}).
    reflexivity.
  - apply (upload_size_limit initial {| name := lit "a.py"; size := 1048577 |}).
    reflexivity.
Defined.

Lemma key_guards_witness :
  handleAnalyze
    (setAiConfig (setCode initial (lit "x = 1"))
                 {| provider := openai; model := lit "gpt-4o"; apiKey := lit "  " |})
    [] 
  = setShowResults
      (setAiConfig (setCode initial (lit "x = 1"))
                   {| provider := openai; model := lit "gpt-4o"; apiKey := lit "  " |})
      true
  /\ callAI header_failure header_failure header_failure []
            {| provider := openai; model := lit "gpt-4o"; apiKey := lit "  " |}
     = Thrown key_required.
Proof.
  destruct (key_guards header_failure header_failure header_failure
              (setAiConfig (setCode initial (lit "x = 1"))
                 {| provider := openai; model := lit "gpt-4o";
                    apiKey := lit "  " |}) [] [])
    as (_ & _ & H); [reflexivity|].
  apply H; [discriminate | reflexivity].
Defined.

Lemma toast_round_trip_witness :
  removeToast (showToast initial (lit "17") (lit "hello") Toast.info) (lit "17")
  = initial.
Proof.
  apply (toast_round_trip initial (lit "17") (lit "hello") [] Toast.info
           Toast.info).
  intros t [].
Defined.

Section PanelFacts.

Local Open Scope string_scope.
Local Open Scope list_scope.

Lemma defaultModel_listed (p : AIProvider) :
  exists m, In m (AI_MODELS p) /\ defaultModel p = lit m.
Proof.
  destruct p; eexists; (split; [left; reflexivity | reflexivity]).
Qed.

(** X24.  In the configuration panel the model always belongs to the
    provider: from a configuration whose model is listed for its
    provider, picking a provider, picking one of the offered models or
    editing the key leads only to such configurations; picking a
    provider selects its first listed model and keeps the key.  The
    initial configuration of the application is such a one. *)
Theorem model_belongs_to_provider (config c : AIConfig) :
  consistent config -> reaches config c ->
  consistent c
  /\ (forall p, apiKey (handleProviderChange c p) = apiKey c
                /\ provider (handleProviderChange c p) = p
                /\ model (handleProviderChange c p)
                   = lit (hd "" (AI_MODELS p)))
  /\ consistent (aiConfig initial).
Proof.
  intros H0 R. split; [|split].
  - induction R as [|c a R IH Ha]; [exact H0|].
    destruct a as [p|m|k]; cbn [perform offered] in *.
    + destruct (defaultModel_listed p) as (m & Hm & E).
      exists m. now split.
    + exists m. now split.
    + exact IH.
  - intros p. now destruct p.
  - exists "gpt-4o-mini". split; [cbn; tauto | reflexivity].
Qed.

End PanelFacts.

Lemma model_belongs_to_provider_witness :
  consistent (handleModelChange (handleProviderChange (aiConfig initial) google)
                                (lit "gemini-1.5-pro")).
Proof.
  apply (model_belongs_to_provider (aiConfig initial)).
  - exists "gpt-4o-mini"%string. split; [cbn; tauto | reflexivity].
  - apply (reaches_step _ _ (PickModel "gemini-1.5-pro"%string)).
    + apply (reaches_step _ _ (PickProvider google)); [constructor | exact I].
    + cbn. tauto.
Defined.

Lemma results_open_only_on_analyze_witness :
  apiKey (aiConfig (setAiConfig (setCode initial (lit "x = 1"))
                      {| provider := openai; model := lit "gpt-4o";
                         apiKey := lit "sk-1" |})) <> [].
Proof.
  apply (results_open_only_on_analyze (map ascii_lower)
           (setAiConfig (setCode initial (lit "x = 1"))
              {| provider := openai; model := lit "gpt-4o";
                 apiKey := lit "sk-1" |})
           (Analyze (lit "17"))); reflexivity.
Defined.
